(** * Portfolio manager backend: request handlers over a relational store

    A shallow embedding of the Express handlers of the backend (index.js) and
    of the three tables of run_setup.sql.  Each handler is a computation in a
    small monad [Db] that threads the store and an oracle saying which of the
    statements sent through [db.query] throw.  The handlers follow the source
    statement by statement: the same guards, in the same order, the same
    status codes and messages.

    Conventions.
    - A JS number is an IEEE-754 binary64 value ([PrimFloat.float]); request
      body fields are JSON scalars or absent ([JUndefined]).
    - The path parameter [:id] is the integer the store compares it to.
    - What the source leaves to the JS runtime and to the SQL engine (parsing
      a string as a number, turning a parameter into a column value) is
      gathered in the record [Host]; every theorem holds for every host. *)

From Stdlib Require Import ZArith List String Ascii Bool Lia Floats QArith.
From Stdlib Require Import DecimalString Permutation.
Import ListNotations.

Local Open Scope Z_scope.
Local Open Scope string_scope.

(** ** JavaScript values and the operators the handlers use *)

Inductive jsval : Type :=
| JUndefined
| JNull
| JBool (b : bool)
| JNum (x : float)
| JStr (s : string).

Definition is_nan (x : float) : bool := negb (PrimFloat.eqb x x).

(** [!v] is [negb (truthy v)]: undefined, null, false, 0, -0, NaN and the
    empty string are falsy. *)
Definition truthy (v : jsval) : bool :=
  match v with
  | JUndefined | JNull => false
  | JBool b => b
  | JNum x => negb (PrimFloat.eqb x PrimFloat.zero || is_nan x)
  | JStr s => negb (String.eqb s "")
  end.

(** [a || b] on values. *)
Definition js_or (a b : jsval) : jsval := if truthy a then a else b.

(** [v === s] for a string literal [s]. *)
Definition strict_eq_str (v : jsval) (s : string) : bool :=
  match v with
  | JStr t => String.eqb t s
  | _ => false
  end.

(** [arr.includes(v)] for an array of string literals. *)
Definition includes (arr : list string) (v : jsval) : bool :=
  existsb (strict_eq_str v) arr.

(** The part of the behaviour that the source delegates to the JS runtime and
    to the SQL engine.
    - [StringToNumber]: ECMAScript's conversion of a string to a number.
    - [sql_text]: the value a VARCHAR or ENUM column takes from a parameter
      that is not a string.
    - [sql_decimal d v]: the value, in units of 10^-d, that a DECIMAL(_,d)
      column takes from the parameter [v].
    - [sql_int v]: the integer that [v] denotes where it meets an INT column
      ([None] when it equals no integer). *)
Record Host : Type := {
  StringToNumber : string -> float;
  sql_text : jsval -> string;
  sql_decimal : nat -> jsval -> Z;
  sql_int : jsval -> option Z
}.

Section JsNumbers.
Context (H : Host).

Definition ToNumber (v : jsval) : float :=
  match v with
  | JUndefined => PrimFloat.nan
  | JNull => PrimFloat.zero
  | JBool true => PrimFloat.one
  | JBool false => PrimFloat.zero
  | JNum x => x
  | JStr s => StringToNumber H s
  end.

(** [Number(v)]. *)
Definition Number (v : jsval) : jsval := JNum (ToNumber v).

(** [v <= 0]: the right operand is a number, so the left one is converted
    and the comparison is the IEEE one (false on NaN). *)
Definition js_le_zero (v : jsval) : bool :=
  PrimFloat.leb (ToNumber v) PrimFloat.zero.

(** [a * b]. *)
Definition js_mul (a b : jsval) : jsval :=
  JNum (PrimFloat.mul (ToNumber a) (ToNumber b)).
End JsNumbers.

(** ** The tables of run_setup.sql

    DECIMAL columns hold an integer number of units: 10^-4 for
    [current_price], [quantity] and [price] (DECIMAL(_,4)), 10^-2 for
    [target_amount] and [total_amount] (DECIMAL(15,2)). *)

Record instrument_row : Type := {
  i_id : Z;
  i_symbol : string;
  i_name : string;
  i_type : string;
  i_current_price : Z;
  i_created_at : Z;
  i_updated_at : Z
}.

Record goal_row : Type := {
  g_id : Z;
  g_name : string;
  g_target_amount : Z;
  g_created_at : Z
}.

Record trade_row : Type := {
  t_id : Z;
  t_instrument_id : Z;
  t_goal_id : option Z;
  t_transaction_type : string;
  t_quantity : Z;
  t_price : Z;
  t_total_amount : Z;
  t_created_at : Z
}.

(** The store: the three tables in insertion order, the AUTO_INCREMENT
    counters and the reading of CURRENT_TIMESTAMP. *)
Record store : Type := {
  instruments : list instrument_row;
  goals : list goal_row;
  trade_log : list trade_row;
  next_instrument_id : Z;
  next_goal_id : Z;
  next_trade_id : Z;
  clock : Z
}.

Definition with_instruments (l : list instrument_row) (n : Z) (s : store) : store :=
  {| instruments := l; goals := goals s; trade_log := trade_log s;
     next_instrument_id := n; next_goal_id := next_goal_id s;
     next_trade_id := next_trade_id s; clock := clock s |}.

Definition with_goals (l : list goal_row) (n : Z) (s : store) : store :=
  {| instruments := instruments s; goals := l; trade_log := trade_log s;
     next_instrument_id := next_instrument_id s; next_goal_id := n;
     next_trade_id := next_trade_id s; clock := clock s |}.

Definition with_trade_log (l : list trade_row) (n : Z) (s : store) : store :=
  {| instruments := instruments s; goals := goals s; trade_log := l;
     next_instrument_id := next_instrument_id s; next_goal_id := next_goal_id s;
     next_trade_id := n; clock := clock s |}.

(** ** What the driver hands back

    mysql2 returns a DECIMAL column as its decimal string (the pool of db.js
    does not set [decimalNumbers]); the handlers turn it into a number with
    [Number(...)] where they do. *)

Definition pad_zeros (n : nat) (s : string) : string :=
  String.concat "" (repeat "0" (n - String.length s)) ++ s.

Definition digits_of (n : Z) : string :=
  NilZero.string_of_uint (N.to_uint (Z.to_N n)).

(** The decimal string of [u] units of 10^-d, as MySQL prints it. *)
Definition decimal_string (d : nat) (u : Z) : string :=
  let a := Z.abs u in
  let p := 10 ^ Z.of_nat d in
  (if (u <? 0)%Z then "-" else "") ++ digits_of (a / p) ++
  match d with
  | O => ""
  | _ => "." ++ pad_zeros d (digits_of (a mod p))
  end.

Record instrument_obj : Type := {
  io_id : Z;
  io_symbol : string;
  io_name : string;
  io_type : string;
  io_current_price : jsval;
  io_created_at : Z;
  io_updated_at : Z
}.

Record goal_obj : Type := {
  go_id : Z;
  go_name : string;
  go_target_amount : jsval;
  go_created_at : Z
}.

(** A row of the trade-log query: [tl.*] and the four joined columns, which
    are NULL when the LEFT JOIN finds no partner. *)
Record trade_obj : Type := {
  to_id : Z;
  to_instrument_id : Z;
  to_goal_id : option Z;
  to_transaction_type : string;
  to_quantity : jsval;
  to_price : jsval;
  to_total_amount : jsval;
  to_created_at : Z;
  to_instrument_symbol : option string;
  to_instrument_name : option string;
  to_instrument_type : option string;
  to_goal_name : option string
}.

Definition instrument_of_row (r : instrument_row) : instrument_obj :=
  {| io_id := i_id r; io_symbol := i_symbol r; io_name := i_name r;
     io_type := i_type r;
     io_current_price := JStr (decimal_string 4 (i_current_price r));
     io_created_at := i_created_at r; io_updated_at := i_updated_at r |}.

Definition goal_of_row (r : goal_row) : goal_obj :=
  {| go_id := g_id r; go_name := g_name r;
     go_target_amount := JStr (decimal_string 2 (g_target_amount r));
     go_created_at := g_created_at r |}.

Definition trade_of_row (t : trade_row) (i : option instrument_row)
    (g : option goal_row) : trade_obj :=
  {| to_id := t_id t; to_instrument_id := t_instrument_id t;
     to_goal_id := t_goal_id t;
     to_transaction_type := t_transaction_type t;
     to_quantity := JStr (decimal_string 4 (t_quantity t));
     to_price := JStr (decimal_string 4 (t_price t));
     to_total_amount := JStr (decimal_string 2 (t_total_amount t));
     to_created_at := t_created_at t;
     to_instrument_symbol := option_map i_symbol i;
     to_instrument_name := option_map i_name i;
     to_instrument_type := option_map i_type i;
     to_goal_name := option_map g_name g |}.

(** ** The SQL statements of the handlers, as functions on the store *)

(** ORDER BY key DESC: a stable insertion sort (rows with equal keys keep
    their table order). *)
Fixpoint insert_desc {A : Type} (key : A -> Z) (x : A) (l : list A) : list A :=
  match l with
  | [] => [x]
  | y :: l' => if (key y <=? key x)%Z then x :: l else y :: insert_desc key x l'
  end.

Definition order_by_desc {A : Type} (key : A -> Z) (l : list A) : list A :=
  fold_right (insert_desc key) [] l.

(** LEFT JOIN of one row with a table: its partners, or one NULL partner. *)
Definition left_join {A B : Type} (on : A -> B -> bool) (x : A) (l : list B)
    : list (option B) :=
  match filter (on x) l with
  | [] => [None]
  | m => map Some m
  end.

Definition on_instrument (t : trade_row) (i : instrument_row) : bool :=
  (t_instrument_id t =? i_id i)%Z.

Definition on_goal (t : trade_row) (g : goal_row) : bool :=
  match t_goal_id t with
  | Some z => (z =? g_id g)%Z
  | None => false
  end.

(** [FROM trade_log tl LEFT JOIN instruments i ON tl.instrument_id = i.id
     LEFT JOIN goals g ON tl.goal_id = g.id], for one row of trade_log. *)
Definition join_trade (s : store) (t : trade_row) : list trade_obj :=
  flat_map
    (fun i => map (trade_of_row t i) (left_join on_goal t (goals s)))
    (left_join on_instrument t (instruments s)).

Definition affected {A : Type} (p : A -> bool) (l : list A) : Z :=
  Z.of_nat (List.length (filter p l)).

Section Statements.
Context (H : Host).

Definition col_text (v : jsval) : string :=
  match v with
  | JStr s => s
  | _ => sql_text H v
  end.

(** A nullable INT column: NULL from null, else the integer denoted. *)
Definition col_int_null (v : jsval) : option Z :=
  match v with
  | JUndefined | JNull => None
  | _ => sql_int H v
  end.

(** [id = ?] on an INT column against a JS parameter. *)
Definition eq_param (id : Z) (v : jsval) : bool :=
  match sql_int H v with
  | Some z => (id =? z)%Z
  | None => false
  end.

(** SELECT * FROM instruments ORDER BY created_at DESC *)
Definition select_instruments (s : store) : list instrument_obj * store :=
  (map instrument_of_row (order_by_desc i_created_at (instruments s)), s).

(** SELECT ... FROM instruments WHERE id = ? *)
Definition select_instrument (id : Z) (s : store) : list instrument_obj * store :=
  (map instrument_of_row (filter (fun r => (i_id r =? id)%Z) (instruments s)), s).

(** INSERT INTO instruments (symbol, name, type, current_price) VALUES (?, ?, ?, ?);
    the result is [insertId]. *)
Definition insert_instrument (symbol name type current_price : jsval) (s : store)
    : Z * store :=
  let r := {| i_id := next_instrument_id s;
              i_symbol := col_text symbol; i_name := col_text name;
              i_type := col_text type;
              i_current_price := sql_decimal H 4 current_price;
              i_created_at := clock s; i_updated_at := clock s |} in
  (next_instrument_id s,
   with_instruments (instruments s ++ [r]) (next_instrument_id s + 1) s).

(** One row under UPDATE instruments SET symbol = ?, name = ?, type = ?,
    current_price = ?: [updated_at] moves only when a column changes. *)
Definition set_instrument (symbol name type current_price : jsval) (now : Z)
    (r : instrument_row) : instrument_row :=
  let sy := col_text symbol in
  let na := col_text name in
  let ty := col_text type in
  let pr := sql_decimal H 4 current_price in
  if String.eqb sy (i_symbol r) && String.eqb na (i_name r)
     && String.eqb ty (i_type r) && (pr =? i_current_price r)%Z
  then r
  else {| i_id := i_id r; i_symbol := sy; i_name := na; i_type := ty;
          i_current_price := pr; i_created_at := i_created_at r;
          i_updated_at := now |}.

(** UPDATE instruments SET ... WHERE id = ?; the result is [affectedRows]
    (the rows matched: the driver connects with FOUND_ROWS). *)
Definition update_instrument (symbol name type current_price : jsval) (id : Z)
    (s : store) : Z * store :=
  (affected (fun r => (i_id r =? id)%Z) (instruments s),
   with_instruments
     (map (fun r => if (i_id r =? id)%Z
                    then set_instrument symbol name type current_price (clock s) r
                    else r) (instruments s))
     (next_instrument_id s) s).

(** DELETE FROM instruments WHERE id = ? *)
Definition delete_instrument_row (id : Z) (s : store) : Z * store :=
  (affected (fun r => (i_id r =? id)%Z) (instruments s),
   with_instruments (filter (fun r => negb (i_id r =? id)%Z) (instruments s))
     (next_instrument_id s) s).

(** SELECT COUNT( * ) as count FROM trade_log WHERE instrument_id = ? *)
Definition count_trades_of_instrument (id : Z) (s : store) : Z * store :=
  (affected (fun t => (t_instrument_id t =? id)%Z) (trade_log s), s).

(** DELETE FROM trade_log WHERE instrument_id = ? *)
Definition delete_trades_of_instrument (id : Z) (s : store) : Z * store :=
  (affected (fun t => (t_instrument_id t =? id)%Z) (trade_log s),
   with_trade_log (filter (fun t => negb (t_instrument_id t =? id)%Z) (trade_log s))
     (next_trade_id s) s).

(** SELECT * FROM goals ORDER BY created_at DESC *)
Definition select_goals (s : store) : list goal_obj * store :=
  (map goal_of_row (order_by_desc g_created_at (goals s)), s).

(** SELECT * FROM goals WHERE id = ? (path parameter) *)
Definition select_goal (id : Z) (s : store) : list goal_obj * store :=
  (map goal_of_row (filter (fun r => (g_id r =? id)%Z) (goals s)), s).

(** SELECT id FROM goals WHERE id = ? (the [goal_id] of a request body) *)
Definition select_goal_param (v : jsval) (s : store) : list goal_obj * store :=
  (map goal_of_row (filter (fun r => eq_param (g_id r) v) (goals s)), s).

(** INSERT INTO goals (name, target_amount) VALUES (?, ?) *)
Definition insert_goal (name target_amount : jsval) (s : store) : Z * store :=
  let r := {| g_id := next_goal_id s; g_name := col_text name;
              g_target_amount := sql_decimal H 2 target_amount;
              g_created_at := clock s |} in
  (next_goal_id s, with_goals (goals s ++ [r]) (next_goal_id s + 1) s).

(** UPDATE goals SET name = ?, target_amount = ? WHERE id = ? *)
Definition update_goal (name target_amount : jsval) (id : Z) (s : store)
    : Z * store :=
  (affected (fun r => (g_id r =? id)%Z) (goals s),
   with_goals
     (map (fun r => if (g_id r =? id)%Z
                    then {| g_id := g_id r; g_name := col_text name;
                            g_target_amount := sql_decimal H 2 target_amount;
                            g_created_at := g_created_at r |}
                    else r) (goals s))
     (next_goal_id s) s).

(** DELETE FROM goals WHERE id = ? *)
Definition delete_goal_row (id : Z) (s : store) : Z * store :=
  (affected (fun r => (g_id r =? id)%Z) (goals s),
   with_goals (filter (fun r => negb (g_id r =? id)%Z) (goals s))
     (next_goal_id s) s).

(** SELECT COUNT( * ) as count FROM trade_log WHERE goal_id = ? *)
Definition count_trades_of_goal (id : Z) (s : store) : Z * store :=
  (affected (fun t => match t_goal_id t with
                      | Some z => (z =? id)%Z
                      | None => false
                      end) (trade_log s), s).

(** The joined trade-log query, ORDER BY tl.created_at DESC. *)
Definition select_trade_log (s : store) : list trade_obj * store :=
  (order_by_desc to_created_at (flat_map (join_trade s) (trade_log s)), s).

(** The joined trade-log query, WHERE tl.id = ? *)
Definition select_trade (id : Z) (s : store) : list trade_obj * store :=
  (flat_map (join_trade s) (filter (fun t => (t_id t =? id)%Z) (trade_log s)), s).

(** INSERT INTO trade_log (instrument_id, goal_id, transaction_type,
    quantity, price, total_amount) VALUES (?, ?, ?, ?, ?, ?) *)
Definition insert_trade (id : Z) (goal_id : jsval) (kind : string)
    (quantity price total_amount : jsval) (s : store) : Z * store :=
  let t := {| t_id := next_trade_id s; t_instrument_id := id;
              t_goal_id := col_int_null goal_id;
              t_transaction_type := kind;
              t_quantity := sql_decimal H 4 quantity;
              t_price := sql_decimal H 4 price;
              t_total_amount := sql_decimal H 2 total_amount;
              t_created_at := clock s |} in
  (next_trade_id s, with_trade_log (trade_log s ++ [t]) (next_trade_id s + 1) s).
End Statements.

(** ** Running statements: the [Db] monad

    [db.query] either resolves with the statement's result or rejects.  The
    source does not decide which (constraint violations, conversion errors
    and lost connections are the engine's business): an oracle does, one
    entry per statement sent, [Some msg] for a rejection with [err.message =
    msg].  A rejected statement leaves the store as it was; an exhausted
    oracle rejects nothing. *)

Definition oracle : Type := list (option string).

Inductive outcome (A : Type) : Type :=
| Resolved (a : A)
| Thrown (msg : string).

Arguments Resolved {A} a.
Arguments Thrown {A} msg.

Definition Db (A : Type) : Type := store -> oracle -> outcome A * store * oracle.

Definition ret {A : Type} (a : A) : Db A := fun s o => (Resolved a, s, o).

Definition throw {A : Type} (msg : string) : Db A := fun s o => (Thrown msg, s, o).

Definition bind {A B : Type} (m : Db A) (k : A -> Db B) : Db B :=
  fun s o =>
    match m s o with
    | (Resolved a, s', o') => k a s' o'
    | (Thrown msg, s', o') => (Thrown msg, s', o')
    end.

Notation "x <- m ;; k" := (bind m (fun x => k))
  (at level 61, m at next level, right associativity).

(** [await db.query(...)] *)
Definition query {A : Type} (stmt : store -> A * store) : Db A :=
  fun s o =>
    match o with
    | Some msg :: o' => (Thrown msg, s, o')
    | None :: o' => let (a, s') := stmt s in (Resolved a, s', o')
    | [] => let (a, s') := stmt s in (Resolved a, s', [])
    end.

(** [rows[0]] where the handler goes on to read a field of it: a TypeError
    when the array is empty. *)
Definition first_row {A : Type} (field : string) (rows : list A) : Db A :=
  match rows with
  | r :: _ => ret r
  | [] => throw ("Cannot read properties of undefined (reading '" ++ field ++ "')")
  end.

(** ** Responses *)

Inductive body : Type :=
| BError (msg : string)
| BMessage (msg : string)
| BInstrument (o : instrument_obj)
| BInstruments (l : list instrument_obj)
| BGoal (o : goal_obj)
| BGoals (l : list goal_obj)
| BTrade (o : option trade_obj)
| BTrades (l : list trade_obj).

Record response : Type := { status : Z; payload : body }.

Definition respond (code : Z) (b : body) : Db response :=
  ret {| status := code; payload := b |}.

(** [try { ... } catch (err) { res.status(500).json({ error: err.message }) }] *)
Definition try_catch (m : Db response) (s : store) (o : oracle) : response * store :=
  match m s o with
  | (Resolved r, s', _) => (r, s')
  | (Thrown msg, s', _) => ({| status := 500; payload := BError msg |}, s')
  end.

(** A response sent before the [try] block is entered. *)
Definition reject (code : Z) (msg : string) (s : store) (_ : oracle)
    : response * store :=
  ({| status := code; payload := BError msg |}, s).

(** ** The handlers of index.js *)

Definition instrument_types : list string := ["STOCK"; "MF"; "GOLD"].

Definition is_empty {A : Type} (rows : list A) : bool :=
  match rows with
  | [] => true
  | _ => false
  end.

Section Handlers.
Context (H : Host).

(** [{ ...row, current_price: Number(row.current_price) }] *)
Definition price_as_number (o : instrument_obj) : instrument_obj :=
  {| io_id := io_id o; io_symbol := io_symbol o; io_name := io_name o;
     io_type := io_type o;
     io_current_price := Number H (io_current_price o);
     io_created_at := io_created_at o; io_updated_at := io_updated_at o |}.

(** [{ ...row, target_amount: Number(row.target_amount) }] *)
Definition target_as_number (o : goal_obj) : goal_obj :=
  {| go_id := go_id o; go_name := go_name o;
     go_target_amount := Number H (go_target_amount o);
     go_created_at := go_created_at o |}.

(** [{ ...row, quantity: Number(row.quantity), price: Number(row.price),
      total_amount: Number(row.total_amount) }] *)
Definition amounts_as_numbers (o : trade_obj) : trade_obj :=
  {| to_id := to_id o; to_instrument_id := to_instrument_id o;
     to_goal_id := to_goal_id o;
     to_transaction_type := to_transaction_type o;
     to_quantity := Number H (to_quantity o);
     to_price := Number H (to_price o);
     to_total_amount := Number H (to_total_amount o);
     to_created_at := to_created_at o;
     to_instrument_symbol := to_instrument_symbol o;
     to_instrument_name := to_instrument_name o;
     to_instrument_type := to_instrument_type o;
     to_goal_name := to_goal_name o |}.

(** GET /instruments *)
Definition get_instruments : store -> oracle -> response * store :=
  try_catch (
    rows <- query (select_instruments) ;;
    respond 200 (BInstruments (map price_as_number rows))).

(** GET /instruments/:id *)
Definition get_instrument (id : Z) : store -> oracle -> response * store :=
  try_catch (
    rows <- query (select_instrument id) ;;
    match rows with
    | [] => respond 404 (BError "Instrument not found")
    | r :: _ => respond 200 (BInstrument (price_as_number r))
    end).

(** The two guards shared by POST and PUT /instruments. *)
Definition instrument_fields_missing (symbol name type current_price : jsval) : bool :=
  negb (truthy symbol) || negb (truthy name) || negb (truthy type)
  || negb (truthy current_price).

(** POST /instruments *)
Definition post_instrument (symbol name type current_price : jsval)
    : store -> oracle -> response * store :=
  if instrument_fields_missing symbol name type current_price then
    reject 400 "All fields are required"
  else if negb (includes instrument_types type) then
    reject 400 "Type must be STOCK, MF, or GOLD"
  else
    try_catch (
      insertId <- query (insert_instrument H symbol name type current_price) ;;
      instrument <- query (select_instrument insertId) ;;
      r <- first_row "current_price" instrument ;;
      respond 201 (BInstrument (price_as_number r))).

(** PUT /instruments/:id *)
Definition put_instrument (id : Z) (symbol name type current_price : jsval)
    : store -> oracle -> response * store :=
  if instrument_fields_missing symbol name type current_price then
    reject 400 "All fields are required"
  else if negb (includes instrument_types type) then
    reject 400 "Type must be STOCK, MF, or GOLD"
  else
    try_catch (
      affectedRows <- query (update_instrument H symbol name type current_price id) ;;
      if (affectedRows =? 0)%Z then
        respond 404 (BError "Instrument not found")
      else
        instrument <- query (select_instrument id) ;;
        r <- first_row "current_price" instrument ;;
        respond 200 (BInstrument (price_as_number r))).

(** DELETE /instruments/:id, with [cascade] read from the query string. *)
Definition delete_instrument (id : Z) (cascade : jsval)
    : store -> oracle -> response * store :=
  try_catch (
    count <- query (count_trades_of_instrument id) ;;
    if (0 <? count)%Z then
      if strict_eq_str cascade "true" then
        _ <- query (delete_trades_of_instrument id) ;;
        affectedRows <- query (delete_instrument_row id) ;;
        if (affectedRows =? 0)%Z then
          respond 404 (BError "Instrument not found")
        else
          respond 200 (BMessage "Instrument and associated trade logs deleted")
      else
        respond 400 (BError "Cannot delete instrument with existing trade history. Please delete all related trade logs first or use ?cascade=true parameter.")
    else
      affectedRows <- query (delete_instrument_row id) ;;
      if (affectedRows =? 0)%Z then
        respond 404 (BError "Instrument not found")
      else
        respond 200 (BMessage "Instrument deleted")).

(** GET /goals *)
Definition get_goals : store -> oracle -> response * store :=
  try_catch (
    rows <- query (select_goals) ;;
    respond 200 (BGoals (map target_as_number rows))).

(** GET /goals/:id *)
Definition get_goal (id : Z) : store -> oracle -> response * store :=
  try_catch (
    rows <- query (select_goal id) ;;
    match rows with
    | [] => respond 404 (BError "Goal not found")
    | r :: _ => respond 200 (BGoal (target_as_number r))
    end).

(** POST /goals *)
Definition post_goal (name target_amount : jsval)
    : store -> oracle -> response * store :=
  if negb (truthy name) || negb (truthy target_amount) then
    reject 400 "All fields are required"
  else
    try_catch (
      insertId <- query (insert_goal H name target_amount) ;;
      goal <- query (select_goal insertId) ;;
      r <- first_row "target_amount" goal ;;
      respond 201 (BGoal (target_as_number r))).

(** PUT /goals/:id *)
Definition put_goal (id : Z) (name target_amount : jsval)
    : store -> oracle -> response * store :=
  if negb (truthy name) || negb (truthy target_amount) then
    reject 400 "All fields are required"
  else
    try_catch (
      affectedRows <- query (update_goal H name target_amount id) ;;
      if (affectedRows =? 0)%Z then
        respond 404 (BError "Goal not found")
      else
        goal <- query (select_goal id) ;;
        r <- first_row "target_amount" goal ;;
        respond 200 (BGoal (target_as_number r))).

(** DELETE /goals/:id *)
Definition delete_goal (id : Z) : store -> oracle -> response * store :=
  try_catch (
    count <- query (count_trades_of_goal id) ;;
    if (0 <? count)%Z then
      respond 400 (BError "Cannot delete goal with existing trade history. Please delete all related trade logs first.")
    else
      affectedRows <- query (delete_goal_row id) ;;
      if (affectedRows =? 0)%Z then
        respond 404 (BError "Goal not found")
      else
        respond 200 (BMessage "Goal deleted")).

(** GET /trade-log *)
Definition get_trade_log : store -> oracle -> response * store :=
  try_catch (
    rows <- query (select_trade_log) ;;
    respond 200 (BTrades (map amounts_as_numbers rows))).

(** The rest of a buy or sell once the references are verified. *)
Definition record_trade (kind : string) (id : Z) (quantity price goal_id : jsval)
    : Db response :=
  let total_amount := js_mul H quantity price in
  insertId <- query (insert_trade H id (js_or goal_id JNull) kind
                       quantity price total_amount) ;;
  tradeLog <- query (select_trade insertId) ;;
  respond 201 (BTrade (hd_error tradeLog)).

(** POST /instruments/:id/buy and POST /instruments/:id/sell: the two
    handlers differ only in the literal written to [transaction_type]. *)
Definition trade (kind : string) (id : Z) (quantity price goal_id : jsval)
    : store -> oracle -> response * store :=
  if negb (truthy quantity) || negb (truthy price) then
    reject 400 "quantity and price are required"
  else if js_le_zero H quantity || js_le_zero H price then
    reject 400 "quantity and price must be positive"
  else
    try_catch (
      instrument <- query (select_instrument id) ;;
      if is_empty instrument then
        respond 404 (BError "Instrument not found")
      else if truthy goal_id then
        goal <- query (select_goal_param H goal_id) ;;
        if is_empty goal then
          respond 400 (BError "Goal not found")
        else
          record_trade kind id quantity price goal_id
      else
        record_trade kind id quantity price goal_id).

Definition post_buy : Z -> jsval -> jsval -> jsval -> store -> oracle -> response * store :=
  trade "BUY".

Definition post_sell : Z -> jsval -> jsval -> jsval -> store -> oracle -> response * store :=
  trade "SELL".
End Handlers.

(** ** The routes *)

Inductive request : Type :=
| GetInstruments
| GetInstrument (id : Z)
| PostInstrument (symbol name type current_price : jsval)
| PutInstrument (id : Z) (symbol name type current_price : jsval)
| DeleteInstrument (id : Z) (cascade : jsval)
| GetGoals
| GetGoal (id : Z)
| PostGoal (name target_amount : jsval)
| PutGoal (id : Z) (name target_amount : jsval)
| DeleteGoal (id : Z) (cascade : jsval)
| GetTradeLog
| PostBuy (id : Z) (quantity price goal_id : jsval)
| PostSell (id : Z) (quantity price goal_id : jsval).

(** The Express router: the handler registered for the request's method and
    path.  DELETE /goals/:id does not read the query string. *)
Definition handle (H : Host) (r : request) : store -> oracle -> response * store :=
  match r with
  | GetInstruments => get_instruments H
  | GetInstrument id => get_instrument H id
  | PostInstrument sy na ty pr => post_instrument H sy na ty pr
  | PutInstrument id sy na ty pr => put_instrument H id sy na ty pr
  | DeleteInstrument id cascade => delete_instrument id cascade
  | GetGoals => get_goals H
  | GetGoal id => get_goal H id
  | PostGoal na ta => post_goal H na ta
  | PutGoal id na ta => put_goal H id na ta
  | DeleteGoal id _ => delete_goal id
  | GetTradeLog => get_trade_log H
  | PostBuy id q p g => post_buy H id q p g
  | PostSell id q p g => post_sell H id q p g
  end.

(** ** Store invariants

    What the schema's keys promise: ids are unique and below the table's
    AUTO_INCREMENT counter (PRIMARY KEY AUTO_INCREMENT), and the two foreign
    keys of trade_log resolve. *)

Fixpoint distinct (l : list Z) : bool :=
  match l with
  | [] => true
  | x :: l' => negb (existsb (Z.eqb x) l') && distinct l'
  end.

Definition keys_ok {A : Type} (key : A -> Z) (next : Z) (l : list A) : bool :=
  forallb (fun r => (key r <? next)%Z) l && distinct (map key l).

Definition has_instrument (s : store) (id : Z) : bool :=
  existsb (fun i => (i_id i =? id)%Z) (instruments s).

Definition has_goal (s : store) (id : Z) : bool :=
  existsb (fun g => (g_id g =? id)%Z) (goals s).

Definition references_ok (s : store) (t : trade_row) : bool :=
  has_instrument s (t_instrument_id t)
  && match t_goal_id t with
     | Some g => has_goal s g
     | None => true
     end.

Definition trade_keys_ok (s : store) : bool :=
  keys_ok t_id (next_trade_id s) (trade_log s).

Definition store_ok (s : store) : bool :=
  keys_ok i_id (next_instrument_id s) (instruments s)
  && keys_ok g_id (next_goal_id s) (goals s)
  && trade_keys_ok s
  && forallb (references_ok s) (trade_log s).

(** The entries of trade_log that reference an instrument, or a goal. *)
Definition trades_of_instrument (id : Z) (s : store) : list trade_row :=
  filter (fun t => (t_instrument_id t =? id)%Z) (trade_log s).

Definition trades_of_goal (id : Z) (s : store) : list trade_row :=
  filter (fun t => match t_goal_id t with
                   | Some z => (z =? id)%Z
                   | None => false
                   end) (trade_log s).

(** ** Oracles *)

Definition resolves (e : option string) : bool :=
  match e with
  | None => true
  | Some _ => false
  end.

(** The first [n] statements sent are not rejected. *)
Definition resolves_first (n : nat) (o : oracle) : bool :=
  forallb resolves (firstn n o).

(** Statement number [k] (from 0) is rejected with message [msg]. *)
Definition rejects_at (k : nat) (msg : string) (o : oracle) : Prop :=
  nth_error o k = Some (Some msg).

(** ** Values of a monetary field in a response *)

Definition is_number (v : jsval) : bool :=
  match v with
  | JNum _ => true
  | _ => false
  end.

Definition is_string (v : jsval) : bool :=
  match v with
  | JStr _ => true
  | _ => false
  end.

Definition trade_amounts_numeric (o : trade_obj) : bool :=
  is_number (to_quantity o) && is_number (to_price o)
  && is_number (to_total_amount o).

(** Every monetary field of a response body is a number. *)
Definition body_numeric (b : body) : bool :=
  match b with
  | BError _ | BMessage _ => true
  | BInstrument o => is_number (io_current_price o)
  | BInstruments l => forallb (fun o => is_number (io_current_price o)) l
  | BGoal o => is_number (go_target_amount o)
  | BGoals l => forallb (fun o => is_number (go_target_amount o)) l
  | BTrade None => true
  | BTrade (Some o) => trade_amounts_numeric o
  | BTrades l => forallb trade_amounts_numeric l
  end.

(** ** Positive quantities and prices

    The two tests a buy or sell applies to [quantity] and to [price]: not
    falsy, and not [<= 0]. *)
Definition js_positive (H : Host) (v : jsval) : bool :=
  truthy v && negb (js_le_zero H v).

(** ** Exact values and DECIMAL rounding *)

(** The exact value of a finite double (0 for infinities and NaN). *)
Definition exact_value (x : float) : Q :=
  match Prim2SF x with
  | S754_finite sign m e =>
      let v := if (0 <=? e)%Z
               then inject_Z (Zpos m * 2 ^ e)
               else Qmake (Zpos m) (Pos.pow 2 (Z.to_pos (- e))) in
      if sign then Qopp v else v
  | _ => inject_Z 0
  end.

(** An exact value in units of 10^-d, rounded half away from zero: the
    rounding of an exact number stored in a DECIMAL(_,d) column. *)
Definition round_units (d : nat) (q : Q) : Z :=
  let n := (Qnum q * 10 ^ Z.of_nat d)%Z in
  let den := Zpos (Qden q) in
  let a := ((2 * Z.abs n + den) / (2 * den))%Z in
  if (n <? 0)%Z then (- a)%Z else a.

(** The integer a finite double equals, if any. *)
Definition integer_value (x : float) : option Z :=
  let q := Qred (exact_value x) in
  match Prim2SF x with
  | S754_zero _ => Some 0%Z
  | S754_finite _ _ _ => if (Qden q =? 1)%positive then Some (Qnum q) else None
  | _ => None
  end.

(** ** A host for the worked examples

    Plain decimal literals ([-]digits[.digits]) are read as the nearest
    double; numbers become DECIMAL values by rounding their exact value.
    The examples send nothing else. *)

Definition digit_of (c : ascii) : option Z :=
  let n := Z.of_nat (nat_of_ascii c) in
  if (48 <=? n)%Z && (n <=? 57)%Z then Some (n - 48)%Z else None.

(** Reads a run of digits: its value after [acc], how many, what follows. *)
Fixpoint read_digits (s : string) (acc : Z) (n : nat) : Z * nat * string :=
  match s with
  | String c s' =>
      match digit_of c with
      | Some v => read_digits s' (10 * acc + v)%Z (S n)
      | None => (acc, n, s)
      end
  | EmptyString => (acc, n, s)
  end.

(** [Some (negative, units, d)] for the literal of units * 10^-d. *)
Definition parse_decimal (s : string) : option (bool * Z * nat) :=
  let (neg, body) := match s with
                     | String "-" s' => (true, s')
                     | _ => (false, s)
                     end in
  match read_digits body 0 0 with
  | (_, O, _) => None
  | (ip, _, EmptyString) => Some (neg, ip, O)
  | (ip, _, String "." rest) =>
      match read_digits rest ip 0 with
      | (_, O, _) => None
      | (u, d, EmptyString) => Some (neg, u, d)
      | _ => None
      end
  | _ => None
  end.

Definition float_of_Z (z : Z) : float :=
  let m := PrimFloat.of_uint63 (Uint63.of_Z (Z.abs z)) in
  if (z <? 0)%Z then PrimFloat.opp m else m.

Definition example_StringToNumber (s : string) : float :=
  match parse_decimal s with
  | Some (neg, u, d) =>
      let x := PrimFloat.div (float_of_Z u) (float_of_Z (10 ^ Z.of_nat d)) in
      if neg then PrimFloat.opp x else x
  | None => PrimFloat.nan
  end.

Definition example_host : Host :=
  {| StringToNumber := example_StringToNumber;
     sql_text := fun _ => "";
     sql_decimal := fun d v =>
       match v with
       | JNum x => round_units d (exact_value x)
       | _ => 0%Z
       end;
     sql_int := fun v =>
       match v with
       | JNum x => integer_value x
       | JBool b => Some (if b then 1 else 0)%Z
       | _ => None
       end |}.

(** The scenario of the specification: one instrument (XYZ at 100.00), one
    goal, and the instrument bought once (10 at 100.00). *)
Definition xyz : instrument_row :=
  {| i_id := 1; i_symbol := "XYZ"; i_name := "XYZ Corp"; i_type := "STOCK";
     i_current_price := 1000000; i_created_at := 5; i_updated_at := 5 |}.

Definition retirement : goal_row :=
  {| g_id := 1; g_name := "Retirement Fund"; g_target_amount := 500000000;
     g_created_at := 6 |}.

Definition first_buy : trade_row :=
  {| t_id := 1; t_instrument_id := 1; t_goal_id := None;
     t_transaction_type := "BUY"; t_quantity := 100000; t_price := 1000000;
     t_total_amount := 100000; t_created_at := 7 |}.

Definition listed : store :=
  {| instruments := [xyz]; goals := [retirement]; trade_log := [];
     next_instrument_id := 2; next_goal_id := 2; next_trade_id := 1;
     clock := 8 |}.

Definition traded : store :=
  {| instruments := [xyz]; goals := [retirement]; trade_log := [first_buy];
     next_instrument_id := 2; next_goal_id := 2; next_trade_id := 2;
     clock := 9 |}.

Definition empty_store : store :=
  {| instruments := []; goals := []; trade_log := [];
     next_instrument_id := 1; next_goal_id := 1; next_trade_id := 1;
     clock := 0 |}.

(** The responses the theorems name. *)

Definition error_response (code : Z) (msg : string) : response :=
  {| status := code; payload := BError msg |}.

Definition message_response (msg : string) : response :=
  {| status := 200; payload := BMessage msg |}.

Definition instrument_conflict : response :=
  error_response 400 "Cannot delete instrument with existing trade history. Please delete all related trade logs first or use ?cascade=true parameter.".

Definition goal_conflict : response :=
  error_response 400 "Cannot delete goal with existing trade history. Please delete all related trade logs first.".

(** The same store after a second trade, tagged with the goal. *)
Definition tagged_sell : trade_row :=
  {| t_id := 2; t_instrument_id := 1; t_goal_id := Some 1;
     t_transaction_type := "SELL"; t_quantity := 50000; t_price := 1010000;
     t_total_amount := 50500; t_created_at := 9 |}.

Definition tagged : store :=
  {| instruments := [xyz]; goals := [retirement];
     trade_log := [first_buy; tagged_sell];
     next_instrument_id := 2; next_goal_id := 2; next_trade_id := 3;
     clock := 10 |}.

(** Two instruments, each traded once. *)
Definition gold : instrument_row :=
  {| i_id := 2; i_symbol := "GOLD_24K"; i_name := "24K Gold per gram";
     i_type := "GOLD"; i_current_price := 62500000; i_created_at := 6;
     i_updated_at := 6 |}.

Definition gold_buy : trade_row :=
  {| t_id := 2; t_instrument_id := 2; t_goal_id := Some 1;
     t_transaction_type := "BUY"; t_quantity := 100000; t_price := 62000000;
     t_total_amount := 6200000; t_created_at := 9 |}.

Definition portfolio : store :=
  {| instruments := [xyz; gold]; goals := [retirement];
     trade_log := [first_buy; gold_buy];
     next_instrument_id := 3; next_goal_id := 2; next_trade_id := 3;
     clock := 10 |}.

(** Atomicity of a cascade delete at one execution: after the call either
    both deletions have taken effect or neither has. *)
Definition cascade_atomic (id : Z) (s : store) (o : oracle) : bool :=
  let s' := snd (delete_instrument id (JStr "true") s o) in
  (is_empty (trades_of_instrument id s') && negb (has_instrument s' id))
  || (Nat.eqb (List.length (trades_of_instrument id s'))
              (List.length (trades_of_instrument id s))
      && Bool.eqb (has_instrument s' id) (has_instrument s id)).

(** ** What a request can do to the store

    [effect H r s s']: the store [s'] is one that request [r] can leave
    behind from [s], over all the ways the store may reject statements. *)

Definition goal_fields_missing (name target_amount : jsval) : bool :=
  negb (truthy name) || negb (truthy target_amount).

Definition instrument_fields_valid (symbol name type current_price : jsval) : bool :=
  negb (instrument_fields_missing symbol name type current_price)
  && includes instrument_types type.

(** The goal of a buy or sell is absent (falsy) or found by the lookup. *)
Definition goal_accepted (H : Host) (goal_id : jsval) (s : store) : bool :=
  negb (truthy goal_id) || negb (is_empty (fst (select_goal_param H goal_id s))).

Inductive effect (H : Host) : request -> store -> store -> Prop :=
| effect_none (r : request) (s : store) :
    effect H r s s
| effect_post_instrument (sy na ty pr : jsval) (s : store) :
    instrument_fields_valid sy na ty pr = true ->
    effect H (PostInstrument sy na ty pr) s (snd (insert_instrument H sy na ty pr s))
| effect_put_instrument (id : Z) (sy na ty pr : jsval) (s : store) :
    instrument_fields_valid sy na ty pr = true ->
    effect H (PutInstrument id sy na ty pr) s (snd (update_instrument H sy na ty pr id s))
| effect_delete_instrument (id : Z) (cascade : jsval) (s : store) :
    is_empty (trades_of_instrument id s) = true ->
    effect H (DeleteInstrument id cascade) s (snd (delete_instrument_row id s))
| effect_cascade_trades (id : Z) (s : store) :
    is_empty (trades_of_instrument id s) = false ->
    effect H (DeleteInstrument id (JStr "true")) s
      (snd (delete_trades_of_instrument id s))
| effect_cascade (id : Z) (s : store) :
    is_empty (trades_of_instrument id s) = false ->
    effect H (DeleteInstrument id (JStr "true")) s
      (snd (delete_instrument_row id (snd (delete_trades_of_instrument id s))))
| effect_post_goal (na ta : jsval) (s : store) :
    goal_fields_missing na ta = false ->
    effect H (PostGoal na ta) s (snd (insert_goal H na ta s))
| effect_put_goal (id : Z) (na ta : jsval) (s : store) :
    goal_fields_missing na ta = false ->
    effect H (PutGoal id na ta) s (snd (update_goal H na ta id s))
| effect_delete_goal (id : Z) (flag : jsval) (s : store) :
    is_empty (trades_of_goal id s) = true ->
    effect H (DeleteGoal id flag) s (snd (delete_goal_row id s))
| effect_buy (id : Z) (q p g : jsval) (s : store) :
    js_positive H q = true -> js_positive H p = true ->
    has_instrument s id = true -> goal_accepted H g s = true ->
    effect H (PostBuy id q p g) s
      (snd (insert_trade H id (js_or g JNull) "BUY" q p (js_mul H q p) s))
| effect_sell (id : Z) (q p g : jsval) (s : store) :
    js_positive H q = true -> js_positive H p = true ->
    has_instrument s id = true -> goal_accepted H g s = true ->
    effect H (PostSell id q p g) s
      (snd (insert_trade H id (js_or g JNull) "SELL" q p (js_mul H q p) s)).

(** ** Kinds of requests and the status codes of the routes *)

Definition is_trade_request (r : request) : bool :=
  match r with
  | PostBuy _ _ _ _ | PostSell _ _ _ _ => true
  | _ => false
  end.

Definition is_read_request (r : request) : bool :=
  match r with
  | GetInstruments | GetInstrument _ | GetGoals | GetGoal _ | GetTradeLog => true
  | _ => false
  end.

(** The status codes a route can answer with. *)
Definition route_statuses (r : request) : list Z :=
  match r with
  | GetInstruments | GetGoals | GetTradeLog => [200; 500]
  | GetInstrument _ | GetGoal _ => [200; 404; 500]
  | PostInstrument _ _ _ _ | PostGoal _ _ => [201; 400; 500]
  | PutInstrument _ _ _ _ _ | PutGoal _ _ _ => [200; 400; 404; 500]
  | DeleteInstrument _ _ | DeleteGoal _ _ => [200; 400; 404; 500]
  | PostBuy _ _ _ _ | PostSell _ _ _ _ => [201; 400; 404; 500]
  end%Z.

(** Keys in descending order. *)
Fixpoint descending (l : list Z) : bool :=
  match l with
  | x :: ((y :: _) as l') => (y <=? x)%Z && descending l'
  | _ => true
  end.

Definition writes_instruments (r : request) : bool :=
  match r with
  | PostInstrument _ _ _ _ | PutInstrument _ _ _ _ _ | DeleteInstrument _ _ => true
  | _ => false
  end.

Definition writes_goals (r : request) : bool :=
  match r with
  | PostGoal _ _ | PutGoal _ _ _ | DeleteGoal _ _ => true
  | _ => false
  end.

(** A trade-log entry without its transaction type. *)
Definition trade_figures (t : trade_row) : Z * Z * option Z * Z * Z * Z * Z :=
  (t_id t, t_instrument_id t, t_goal_id t, t_quantity t, t_price t,
   t_total_amount t, t_created_at t).

(** * Properties *)

(** ** Counting and filtering *)

Lemma affected_positive {A : Type} (p : A -> bool) (l : list A) :
  (0 <? affected p l)%Z = negb (is_empty (filter p l)).
Proof.
  unfold affected. destruct (filter p l) as [| x m]; [reflexivity |].
  apply Z.ltb_lt. cbn [List.length]. lia.
Qed.

Lemma affected_zero {A : Type} (p : A -> bool) (l : list A) :
  (affected p l =? 0)%Z = is_empty (filter p l).
Proof.
  unfold affected. destruct (filter p l) as [| x m]; [reflexivity |].
  apply Z.eqb_neq. cbn [List.length]. lia.
Qed.

Lemma filter_negb_filter {A : Type} (p : A -> bool) (l : list A) :
  filter p (filter (fun x => negb (p x)) l) = [].
Proof.
  induction l as [| x l IH]; simpl; [reflexivity |].
  destruct (p x) eqn:E; simpl; [assumption | rewrite E; assumption].
Qed.

Lemma is_empty_filter_existsb {A : Type} (p : A -> bool) (l : list A) :
  is_empty (filter p l) = negb (existsb p l).
Proof.
  induction l as [| x l IH]; simpl; [reflexivity |].
  destruct (p x); simpl; [reflexivity | assumption].
Qed.

(** ** Oracles and statements *)

Lemma query_resolves {A : Type} (stmt : store -> A * store) (s : store) (o : oracle) (n : nat) :
  resolves_first (S n) o = true ->
  query stmt s o = (Resolved (fst (stmt s)), snd (stmt s), tl o)
  /\ resolves_first n (tl o) = true.
Proof.
  unfold resolves_first, query. destruct o as [| [msg |] o]; simpl.
  - intros _. destruct (stmt s); split; [reflexivity | destruct n; reflexivity].
  - discriminate.
  - intros E. destruct (stmt s); split; [reflexivity | assumption].
Qed.

Lemma query_rejects {A : Type} (stmt : store -> A * store) (s : store) (o : oracle) (msg : string) :
  rejects_at 0 msg o -> query stmt s o = (Thrown msg, s, tl o).
Proof.
  unfold rejects_at, query. destruct o as [| e o]; simpl; [discriminate |].
  intros E. injection E as ->. reflexivity.
Qed.

Lemma rejects_at_tl (k : nat) (msg : string) (o : oracle) :
  rejects_at (S k) msg o -> rejects_at k msg (tl o).
Proof.
  unfold rejects_at. destruct o; simpl; [destruct k; discriminate | trivial].
Qed.

Lemma resolves_first_le (n m : nat) (o : oracle) :
  (n <= m)%nat -> resolves_first m o = true -> resolves_first n o = true.
Proof.
  unfold resolves_first. revert m o.
  induction n as [| n IH]; intros m o Hle E; [reflexivity |].
  destruct m as [| m]; [lia |].
  destruct o as [| e o]; simpl in *; [reflexivity |].
  apply andb_true_iff in E as [E1 E2]. rewrite E1. simpl.
  apply (IH m); [lia | assumption].
Qed.

(** Runs one awaited statement of a handler, given what the oracle says
    about it. *)
Ltac step_resolved E :=
  match goal with
  | |- context [query ?stmt ?s ?o] =>
      let Q := fresh "Q" in
      let E' := fresh "E" in
      destruct (query_resolves stmt s o _ E) as [Q E'];
      rewrite Q; clear Q; cbn beta iota
  end.

Ltac step_rejected R :=
  match goal with
  | |- context [query ?stmt ?s ?o] =>
      rewrite (query_rejects stmt s o _ R); cbn beta iota
  end.

(** ** Deleting instruments and goals *)

Lemma strict_eq_str_true (v : jsval) (t : string) :
  strict_eq_str v t = true <-> v = JStr t.
Proof.
  destruct v; simpl; try (split; intros E; discriminate).
  rewrite String.eqb_eq. split; intros E; [subst | injection E]; trivial.
Qed.

Lemma strict_eq_str_false (v : jsval) (t : string) :
  strict_eq_str v t = false <-> v <> JStr t.
Proof.
  rewrite <- strict_eq_str_true. destruct (strict_eq_str v t); split; congruence.
Qed.

(** With trade history and anything but the string 'true' as flag, the only
    statement sent is the count: the handler answers 400, or 500 when the
    count is rejected, and the store is not touched. *)
Lemma delete_instrument_blocked (id : Z) (cascade : jsval) (s : store) (o : oracle) :
  is_empty (trades_of_instrument id s) = false ->
  strict_eq_str cascade "true" = false ->
  delete_instrument id cascade s o =
    match o with
    | Some msg :: _ => (error_response 500 msg, s)
    | _ => (instrument_conflict, s)
    end.
Proof.
  intros E F. unfold delete_instrument, try_catch, bind, query.
  unfold count_trades_of_instrument.
  destruct o as [| [msg |] o]; try reflexivity;
    rewrite affected_positive; fold (trades_of_instrument id s);
    rewrite E, F; reflexivity.
Qed.

(** With trade history and the flag 'true', when nothing is rejected. *)
Lemma delete_instrument_cascades (id : Z) (s : store) (o : oracle) :
  is_empty (trades_of_instrument id s) = false ->
  resolves_first 3 o = true ->
  delete_instrument id (JStr "true") s o =
    (if has_instrument s id
     then message_response "Instrument and associated trade logs deleted"
     else error_response 404 "Instrument not found",
     snd (delete_instrument_row id (snd (delete_trades_of_instrument id s)))).
Proof.
  intros E R. unfold delete_instrument, try_catch, bind.
  step_resolved R. cbn [fst snd count_trades_of_instrument].
  rewrite affected_positive. fold (trades_of_instrument id s). rewrite E.
  cbn [negb strict_eq_str]. rewrite String.eqb_refl.
  step_resolved E0. step_resolved E1.
  cbn [fst snd delete_instrument_row delete_trades_of_instrument
       with_trade_log instruments].
  rewrite affected_zero, is_empty_filter_existsb. unfold has_instrument.
  destruct (existsb _ (instruments s)); reflexivity.
Qed.

(** C6: with at least one referencing trade-log entry and no cascade flag,
    DELETE /instruments/:id leaves the store exactly as it was and answers
    with the conflict error (400, "Cannot delete instrument with existing
    trade history...") whenever the count statement is answered; if the
    store rejects the count, the answer is that store error and the store is
    still untouched. *)
Theorem delete_instrument_without_cascade_conflicts
    (id : Z) (s : store) (o : oracle) :
  is_empty (trades_of_instrument id s) = false ->
  snd (delete_instrument id JUndefined s o) = s
  /\ (resolves_first 1 o = true ->
      fst (delete_instrument id JUndefined s o) = instrument_conflict)
  /\ (forall msg, rejects_at 0 msg o ->
      fst (delete_instrument id JUndefined s o) = error_response 500 msg).
Proof.
  intros E. rewrite (delete_instrument_blocked id JUndefined s o E eq_refl).
  unfold resolves_first, rejects_at.
  destruct o as [| [m |] o]; simpl; repeat split; try discriminate; try reflexivity.
  intros msg R. injection R as ->. reflexivity.
Qed.

Lemma delete_instrument_without_cascade_conflicts_witness :
  is_empty (trades_of_instrument 1 traded) = false
  /\ delete_instrument 1 JUndefined traded [] = (instrument_conflict, traded).
Proof.
  split; [reflexivity |].
  destruct (delete_instrument_without_cascade_conflicts 1 traded [] eq_refl)
    as [E1 [E2 _]].
  rewrite (surjective_pairing (delete_instrument 1 JUndefined traded [])).
  rewrite E1, (E2 eq_refl). reflexivity.
Defined.

(** Without trade history the flag is not read: the request runs as one
    without a flag, whatever [cascade] is. *)
Lemma delete_instrument_flag_unread (id : Z) (cascade : jsval) (s : store) (o : oracle) :
  is_empty (trades_of_instrument id s) = true ->
  delete_instrument id cascade s o = delete_instrument id JUndefined s o.
Proof.
  intros E. unfold delete_instrument, try_catch, bind, query.
  unfold count_trades_of_instrument.
  destruct o as [| [msg |] o]; try reflexivity;
    rewrite affected_positive; fold (trades_of_instrument id s);
    rewrite E; reflexivity.
Qed.

(** C10, counterexample: instrument 1 has no trade-log entry and the request
    carries cascade=true.  The cascade branch is not taken: the answer is the
    plain branch's "Instrument deleted", the request runs exactly as one
    without the flag, and only two statements are sent (a rejection placed
    on a third one is never met). *)
Lemma cascade_true_without_history :
  is_empty (trades_of_instrument 1 listed) = true
  /\ delete_instrument 1 (JStr "true") listed []
     = (message_response "Instrument deleted", with_instruments [] 2 listed)
  /\ delete_instrument 1 (JStr "true") listed [None; None; Some "never sent"]
     = (message_response "Instrument deleted", with_instruments [] 2 listed)
  /\ delete_instrument 1 (JStr "true") listed []
     = delete_instrument 1 JUndefined listed [].
Proof.
  repeat split.
Qed.

(** C10, as the code has it: the flag is read only when the instrument has
    at least one referencing trade-log entry.  Then the cascade branch of
    DELETE /instruments/:id is taken iff the query parameter is exactly the
    string 'true': any other value ('True', '1', a boolean, nothing) gives
    the conflict error and leaves the store as it was, and 'true' deletes
    the referencing entries and the instrument (no conflict) when no
    statement is rejected.  With no referencing entry the request runs as
    one without a flag, whatever the parameter is, 'true' included. *)
Theorem cascade_only_on_exact_true
    (id : Z) (cascade : jsval) (s : store) (o : oracle) :
  (is_empty (trades_of_instrument id s) = false ->
   resolves_first 3 o = true ->
   (delete_instrument id cascade s o = (instrument_conflict, s)
    <-> cascade <> JStr "true")
   /\ (cascade = JStr "true" ->
       trades_of_instrument id (snd (delete_instrument id cascade s o)) = []
       /\ has_instrument (snd (delete_instrument id cascade s o)) id = false))
  /\ (is_empty (trades_of_instrument id s) = true ->
      delete_instrument id cascade s o = delete_instrument id JUndefined s o).
Proof.
  split; [| apply delete_instrument_flag_unread].
  intros E R. split; [split |].
  - intros D ->. rewrite (delete_instrument_cascades id s o E R) in D.
    destruct (has_instrument s id); discriminate.
  - intros N. apply strict_eq_str_false in N.
    rewrite (delete_instrument_blocked id cascade s o E N).
    destruct o as [| [m |] o]; try reflexivity. discriminate.
  - intros ->. rewrite (delete_instrument_cascades id s o E R).
    unfold delete_instrument_row, delete_trades_of_instrument, with_instruments,
      with_trade_log, trades_of_instrument, has_instrument.
    cbn [snd trade_log instruments]. split.
    + apply (filter_negb_filter (fun t => (t_instrument_id t =? id)%Z)).
    + rewrite <- (negb_involutive (existsb _ _)), <- is_empty_filter_existsb.
      rewrite (filter_negb_filter (fun i => (i_id i =? id)%Z)). reflexivity.
Qed.

Lemma cascade_only_on_exact_true_witness :
  delete_instrument 1 (JStr "True") traded [] = (instrument_conflict, traded)
  /\ delete_instrument 1 (JStr "1") traded [] = (instrument_conflict, traded)
  /\ delete_instrument 1 (JBool true) traded [] = (instrument_conflict, traded)
  /\ trades_of_instrument 1 (snd (delete_instrument 1 (JStr "true") traded [])) = []
  /\ delete_instrument 1 (JStr "true") listed []
     = delete_instrument 1 JUndefined listed [].
Proof.
  split; [| split; [| split; [| split]]].
  - apply (proj1 (cascade_only_on_exact_true 1 (JStr "True") traded []) eq_refl eq_refl).
    discriminate.
  - apply (proj1 (cascade_only_on_exact_true 1 (JStr "1") traded []) eq_refl eq_refl).
    discriminate.
  - apply (proj1 (cascade_only_on_exact_true 1 (JBool true) traded []) eq_refl eq_refl).
    discriminate.
  - apply (proj1 (cascade_only_on_exact_true 1 (JStr "true") traded []) eq_refl eq_refl).
    reflexivity.
  - apply (proj2 (cascade_only_on_exact_true 1 (JStr "true") listed [])).
    reflexivity.
Defined.

(** C7: with at least one referencing trade-log entry, DELETE /goals/:id
    answers with the conflict error whatever flag the request carries (the
    handler reads none), and neither the goal nor any trade-log entry is
    deleted: the store is exactly as it was. *)
Theorem delete_goal_has_no_override
    (H : Host) (id : Z) (flag : jsval) (s : store) (o : oracle) :
  is_empty (trades_of_goal id s) = false ->
  snd (handle H (DeleteGoal id flag) s o) = s
  /\ (resolves_first 1 o = true ->
      fst (handle H (DeleteGoal id flag) s o) = goal_conflict)
  /\ (forall msg, rejects_at 0 msg o ->
      fst (handle H (DeleteGoal id flag) s o) = error_response 500 msg).
Proof.
  intros E. cbn [handle].
  unfold delete_goal, try_catch, bind, query, count_trades_of_goal.
  unfold resolves_first, rejects_at.
  destruct o as [| [m |] o]; cbn [firstn forallb resolves nth_error fst snd];
    try (rewrite affected_positive; fold (trades_of_goal id s); rewrite E);
    cbn [negb respond ret fst snd];
    (split; [reflexivity | split; [intros R | intros msg R]]);
    try discriminate; try reflexivity.
  injection R as ->. reflexivity.
Qed.

Lemma delete_goal_has_no_override_witness :
  is_empty (trades_of_goal 1 tagged) = false
  /\ handle example_host (DeleteGoal 1 (JStr "true")) tagged [] = (goal_conflict, tagged).
Proof.
  split; [reflexivity |].
  destruct (delete_goal_has_no_override example_host 1 (JStr "true") tagged []
              eq_refl) as [E1 [E2 _]].
  rewrite (surjective_pairing (handle _ _ _ _)), E1, (E2 eq_refl). reflexivity.
Defined.

(** C1, counterexample: instrument 1 has one trade-log entry; the count and
    the deletion of the trade-log entries go through and the deletion of the
    instrument is rejected.  The handler answers 500, the trade-log entry is
    gone and the instrument is still there. *)
Lemma cascade_delete_not_atomic :
  cascade_atomic 1 traded [None; None; Some "Lock wait timeout exceeded"] = false
  /\ delete_instrument 1 (JStr "true") traded
       [None; None; Some "Lock wait timeout exceeded"]
     = (error_response 500 "Lock wait timeout exceeded",
        with_trade_log [] 2 traded).
Proof.
  split; reflexivity.
Qed.

(** C1, as the code has it: with at least one referencing trade-log entry
    and cascade=true, the handler sends the count, then the deletion of the
    referencing entries, then the deletion of the instrument, each on its
    own.  If none is rejected, both deletions take effect: no entry
    references the id, the instrument is gone, and every other row is kept.
    If the count or the first deletion is rejected, the store is as it was.
    If only the second deletion is rejected, the entries stay deleted and
    the instrument remains; the answer is the store error. *)
Theorem cascade_delete_steps (id : Z) (s : store) (o : oracle) :
  is_empty (trades_of_instrument id s) = false ->
  (resolves_first 3 o = true ->
     delete_instrument id (JStr "true") s o =
       (if has_instrument s id
        then message_response "Instrument and associated trade logs deleted"
        else error_response 404 "Instrument not found",
        with_instruments
          (filter (fun i => negb (i_id i =? id)%Z) (instruments s))
          (next_instrument_id s)
          (with_trade_log
             (filter (fun t => negb (t_instrument_id t =? id)%Z) (trade_log s))
             (next_trade_id s) s)))
  /\ (forall msg, rejects_at 0 msg o ->
        delete_instrument id (JStr "true") s o = (error_response 500 msg, s))
  /\ (forall msg, resolves_first 1 o = true -> rejects_at 1 msg o ->
        delete_instrument id (JStr "true") s o = (error_response 500 msg, s))
  /\ (forall msg, resolves_first 2 o = true -> rejects_at 2 msg o ->
        delete_instrument id (JStr "true") s o =
          (error_response 500 msg,
           with_trade_log
             (filter (fun t => negb (t_instrument_id t =? id)%Z) (trade_log s))
             (next_trade_id s) s)).
Proof.
  intros E. split; [| split; [| split]].
  - intros R. rewrite (delete_instrument_cascades id s o E R). reflexivity.
  - intros msg R. unfold delete_instrument, try_catch, bind.
    step_rejected R. reflexivity.
  - intros msg R1 R. unfold delete_instrument, try_catch, bind.
    step_resolved R1. cbn [fst snd count_trades_of_instrument].
    rewrite affected_positive. fold (trades_of_instrument id s). rewrite E.
    cbn [negb strict_eq_str]. rewrite String.eqb_refl.
    apply rejects_at_tl in R. step_rejected R. reflexivity.
  - intros msg R2 R. unfold delete_instrument, try_catch, bind.
    step_resolved R2. cbn [fst snd count_trades_of_instrument].
    rewrite affected_positive. fold (trades_of_instrument id s). rewrite E.
    cbn [negb strict_eq_str]. rewrite String.eqb_refl.
    step_resolved E0.
    apply rejects_at_tl, rejects_at_tl in R. step_rejected R. reflexivity.
Qed.

Lemma cascade_delete_steps_witness :
  is_empty (trades_of_instrument 1 traded) = false
  /\ delete_instrument 1 (JStr "true") traded [] =
       (message_response "Instrument and associated trade logs deleted",
        with_instruments [] 2 (with_trade_log [] 2 traded)).
Proof.
  split; [reflexivity |].
  apply (cascade_delete_steps 1 traded [] eq_refl). reflexivity.
Defined.

(** ** Creating and updating instruments *)

Lemma instrument_guards (H : Host) (id : Z) (symbol name type price : jsval) :
  instrument_fields_missing symbol name type price = true
  \/ includes instrument_types type = false ->
  let answer :=
    reject 400 (if instrument_fields_missing symbol name type price
                then "All fields are required"
                else "Type must be STOCK, MF, or GOLD") in
  post_instrument H symbol name type price = answer
  /\ put_instrument H id symbol name type price = answer.
Proof.
  intros G. unfold post_instrument, put_instrument.
  destruct (instrument_fields_missing symbol name type price);
    [split; reflexivity |].
  destruct G as [G | G]; [discriminate |]. rewrite G. split; reflexivity.
Qed.

(** C2, as the code has it: a create or update request in which symbol,
    name, type or current_price is missing or falsy (absent, null, false, 0,
    NaN or the empty string), or whose type is not one of 'STOCK', 'MF',
    'GOLD', is answered with a validation error (400) and no statement is
    sent: no instrument row is inserted or modified. *)
Theorem instrument_validation_rejects
    (H : Host) (id : Z) (symbol name type price : jsval) (s : store) (o : oracle) :
  instrument_fields_missing symbol name type price = true
  \/ includes instrument_types type = false ->
  (status (fst (post_instrument H symbol name type price s o)) = 400
   /\ snd (post_instrument H symbol name type price s o) = s)
  /\ (status (fst (put_instrument H id symbol name type price s o)) = 400
      /\ snd (put_instrument H id symbol name type price s o) = s).
Proof.
  intros G. destruct (instrument_guards H id symbol name type price G) as [P U].
  rewrite P, U. repeat split.
Qed.

Lemma instrument_validation_rejects_witness :
  post_instrument example_host (JStr "XYZ") (JStr "XYZ Corp") (JStr "STOCK")
    (JNum 0) listed [] = (error_response 400 "All fields are required", listed)
  /\ snd (put_instrument example_host 1 (JStr "XYZ") (JStr "XYZ Corp")
            (JStr "stock") (JNum 100) listed []) = listed.
Proof.
  split.
  - reflexivity.
  - apply (instrument_validation_rejects example_host 1 (JStr "XYZ")
             (JStr "XYZ Corp") (JStr "stock") (JNum 100) listed []).
    right. reflexivity.
Defined.

(** C2, counterexample: a create and an update with current_price -5, which
    is not strictly positive.  Neither is rejected: the create answers 201
    and inserts a row priced -5.0000, the update answers 200 and sets the
    price of instrument 1 to -5.0000. *)
Lemma negative_price_is_accepted :
  (status (fst (post_instrument example_host (JStr "ABC") (JStr "Abc")
                  (JStr "MF") (JNum (-5)) listed [])) = 201
   /\ map i_current_price
        (instruments (snd (post_instrument example_host (JStr "ABC") (JStr "Abc")
                             (JStr "MF") (JNum (-5)) listed [])))
      = [1000000; -50000]%Z)
  /\ (status (fst (put_instrument example_host 1 (JStr "XYZ") (JStr "XYZ Corp")
                     (JStr "STOCK") (JNum (-5)) listed [])) = 200
      /\ map i_current_price
           (instruments (snd (put_instrument example_host 1 (JStr "XYZ")
                                (JStr "XYZ Corp") (JStr "STOCK") (JNum (-5))
                                listed [])))
         = [-50000]%Z).
Proof.
  vm_compute. repeat split.
Qed.

(** ** Buying and selling *)

Lemma is_empty_map {A B : Type} (f : A -> B) (l : list A) :
  is_empty (map f l) = is_empty l.
Proof. destruct l; reflexivity. Qed.

Lemma instrument_found (id : Z) (s : store) :
  is_empty (fst (select_instrument id s)) = negb (has_instrument s id).
Proof.
  unfold select_instrument, has_instrument. cbn [fst].
  rewrite is_empty_map. apply is_empty_filter_existsb.
Qed.

Lemma js_positive_guards (H : Host) (q p : jsval) :
  js_positive H q = true -> js_positive H p = true ->
  negb (truthy q) || negb (truthy p) = false
  /\ js_le_zero H q || js_le_zero H p = false.
Proof.
  unfold js_positive. intros Q P.
  apply andb_true_iff in Q as [Q1 Q2]. apply andb_true_iff in P as [P1 P2].
  rewrite Q1, P1. apply negb_true_iff in Q2, P2. rewrite Q2, P2. split; reflexivity.
Qed.

(** The insert and the re-read of a buy or sell. *)
Lemma record_trade_resolved
    (H : Host) (kind : string) (id : Z) (q p g : jsval) (s : store) (o : oracle) :
  resolves_first 2 o = true ->
  try_catch (record_trade H kind id q p g) s o =
    ({| status := 201;
        payload := BTrade (hd_error (fst (select_trade
                     (fst (insert_trade H id (js_or g JNull) kind q p (js_mul H q p) s))
                     (snd (insert_trade H id (js_or g JNull) kind q p (js_mul H q p) s))))) |},
     snd (insert_trade H id (js_or g JNull) kind q p (js_mul H q p) s)).
Proof.
  intros R. unfold try_catch, record_trade, bind.
  step_resolved R. step_resolved E. reflexivity.
Qed.

(** A buy or sell that passes the two tests on quantity and price, names an
    existing instrument and either no goal (a falsy [goal_id]) or one that
    the goal lookup finds: the entry is inserted and re-read. *)
Lemma trade_accepted
    (H : Host) (kind : string) (id : Z) (q p g : jsval) (s : store) (o : oracle) :
  js_positive H q = true -> js_positive H p = true ->
  has_instrument s id = true ->
  truthy g = false \/ is_empty (fst (select_goal_param H g s)) = false ->
  resolves_first (if truthy g then 4 else 3) o = true ->
  trade H kind id q p g s o =
    ({| status := 201;
        payload := BTrade (hd_error (fst (select_trade
                     (fst (insert_trade H id (js_or g JNull) kind q p (js_mul H q p) s))
                     (snd (insert_trade H id (js_or g JNull) kind q p (js_mul H q p) s))))) |},
     snd (insert_trade H id (js_or g JNull) kind q p (js_mul H q p) s)).
Proof.
  intros Q P I G R.
  destruct (js_positive_guards H q p Q P) as [G1 G2].
  unfold trade. rewrite G1, G2. unfold try_catch, bind at 1.
  destruct (truthy g) eqn:T.
  - step_resolved R. rewrite instrument_found, I. cbn [negb fst snd select_instrument].
    destruct G as [G | G]; [discriminate |].
    unfold bind at 1. step_resolved E. rewrite G.
    cbn [snd select_goal_param].
    exact (record_trade_resolved H kind id q p g s _ E0).
  - step_resolved R. rewrite instrument_found, I. cbn [negb fst snd select_instrument].
    exact (record_trade_resolved H kind id q p g s _ E).
Qed.

(** On a number the two tests of a buy or sell accept exactly the strictly
    positive ones: zero, negative numbers and NaN are refused. *)
Lemma js_positive_number (H : Host) (x : float) :
  js_positive H (JNum x) = PrimFloat.ltb PrimFloat.zero x.
Proof.
  unfold js_positive, truthy, js_le_zero, ToNumber, is_nan.
  rewrite !FloatAxioms.eqb_spec, FloatAxioms.leb_spec, FloatAxioms.ltb_spec.
  change (Prim2SF PrimFloat.zero) with (S754_zero false).
  destruct (Prim2SF x) as [sx | sx | | sx m e]; try reflexivity.
  - destruct sx; reflexivity.
  - unfold SFeqb, SFleb, SFltb, SFcompare.
    rewrite Z.compare_refl.
    change (PosDef.Pos.compare_cont Eq m m) with (m ?= m)%positive.
    rewrite Pos.compare_refl. destruct sx; reflexivity.
Qed.

(** C3, as the code has it: a buy or sell whose quantity and price pass the
    two tests (for numbers: both > 0), against an existing instrument and
    with no goal or one that resolves, appends exactly one trade-log entry
    when no statement is rejected.  Its total_amount is what the amount
    column makes of the JavaScript product [quantity * price]: the IEEE-754
    double nearest to the exact product, not the exact product.
    ([post_buy] is [trade "BUY"], [post_sell] is [trade "SELL"].) *)
Theorem trade_total_is_double_product
    (H : Host) (kind : string) (id : Z) (q p g : jsval) (s : store) (o : oracle) :
  js_positive H q = true -> js_positive H p = true ->
  has_instrument s id = true ->
  truthy g = false \/ is_empty (fst (select_goal_param H g s)) = false ->
  resolves_first 4 o = true ->
  status (fst (trade H kind id q p g s o)) = 201
  /\ exists t,
       trade_log (snd (trade H kind id q p g s o)) = (trade_log s ++ [t])%list
       /\ t_total_amount t
          = sql_decimal H 2 (JNum (PrimFloat.mul (ToNumber H q) (ToNumber H p)))
       /\ t_quantity t = sql_decimal H 4 q
       /\ t_price t = sql_decimal H 4 p
       /\ t_transaction_type t = kind
       /\ t_instrument_id t = id.
Proof.
  intros Q P I G R. rewrite (trade_accepted H kind id q p g s o Q P I G).
  2:{ apply (resolves_first_le _ 4); [destruct (truthy g); lia | assumption]. }
  split; [reflexivity |].
  cbn [snd insert_trade with_trade_log trade_log]. eexists. split; [reflexivity |].
  repeat split.
Qed.

Lemma trade_total_is_double_product_witness :
  status (fst (post_sell example_host 1 (JNum 10) (JNum 100) (JNum 1) listed [])) = 201
  /\ exists t,
       trade_log (snd (post_sell example_host 1 (JNum 10) (JNum 100) (JNum 1) listed []))
       = [t]
       /\ t_total_amount t = 100000%Z
       /\ t_quantity t = 100000%Z
       /\ t_price t = 1000000%Z
       /\ t_transaction_type t = "SELL"
       /\ t_instrument_id t = 1%Z.
Proof.
  apply (trade_total_is_double_product example_host "SELL" 1 (JNum 10) (JNum 100)
           (JNum 1) listed []); try reflexivity.
  right. reflexivity.
Defined.

(** C3, counterexample: quantity 0.24999999999999994 and price
    0.5000000000000001 (both doubles, both > 0).  Their exact product lies
    just below 0.125 and is 0.12 at the two decimals of the amount column;
    the handler computes the double 0.125 and the entry is stored with
    total_amount 0.13. *)
Lemma trade_total_is_not_exact :
  js_positive example_host (JNum 0x1.ffffffffffffep-3%float) = true
  /\ js_positive example_host (JNum 0x1.0000000000001p-1%float) = true
  /\ map t_total_amount
       (trade_log (snd (post_buy example_host 1 (JNum 0x1.ffffffffffffep-3%float)
                          (JNum 0x1.0000000000001p-1%float) JUndefined listed [])))
     = [13%Z]
  /\ round_units 2 (Qmult (exact_value 0x1.ffffffffffffep-3%float)
                          (exact_value 0x1.0000000000001p-1%float)) = 12%Z.
Proof.
  vm_compute. repeat split.
Qed.

(** C4, as the code has it: a buy or sell whose [goal_id] is truthy
    (non-null and not 0, NaN, false or the empty string) and is found by no
    row of goals never creates a trade-log entry: the store is as it was.
    When quantity and price pass their tests, the instrument exists and the
    two lookups are answered, the response is the validation error 400
    "Goal not found" (not a 404). *)
Theorem unknown_goal_is_rejected
    (H : Host) (kind : string) (id : Z) (q p g : jsval) (s : store) (o : oracle) :
  truthy g = true ->
  is_empty (fst (select_goal_param H g s)) = true ->
  snd (trade H kind id q p g s o) = s
  /\ (js_positive H q = true -> js_positive H p = true ->
      has_instrument s id = true -> resolves_first 2 o = true ->
      fst (trade H kind id q p g s o) = error_response 400 "Goal not found").
Proof.
  intros T G. unfold trade.
  destruct (negb (truthy q) || negb (truthy p)) eqn:G1.
  { split; [reflexivity |]. intros Q P.
    destruct (js_positive_guards H q p Q P) as [X _]. congruence. }
  destruct (js_le_zero H q || js_le_zero H p) eqn:G2.
  { split; [reflexivity |]. intros Q P.
    destruct (js_positive_guards H q p Q P) as [_ X]. congruence. }
  pose proof (instrument_found id s) as F.
  unfold select_instrument in F. cbn [fst] in F.
  unfold select_goal_param in G. cbn [fst] in G.
  unfold try_catch, bind, query, select_instrument, select_goal_param, resolves_first.
  destruct o as [| [m |] [| [m' |] o]]; cbn [firstn forallb resolves andb];
    rewrite ?F; destruct (has_instrument s id); cbn [negb];
    rewrite ?T, ?G; cbn [respond ret fst snd];
    (split; [reflexivity | intros Q P I R; try discriminate; reflexivity]).
Qed.

Lemma unknown_goal_is_rejected_witness :
  truthy (JNum 7) = true
  /\ post_buy example_host 1 (JNum 10) (JNum 100) (JNum 7) listed []
     = (error_response 400 "Goal not found", listed).
Proof.
  split; [reflexivity |].
  destruct (unknown_goal_is_rejected example_host "BUY" 1 (JNum 10) (JNum 100)
              (JNum 7) listed [] eq_refl eq_refl) as [E1 E2].
  unfold post_buy. rewrite (surjective_pairing (trade _ _ _ _ _ _ _ _)).
  rewrite E1, (E2 eq_refl eq_refl eq_refl eq_refl). reflexivity.
Defined.

(** C4, counterexample: [goal_id] 0 is not null and no goal has id 0, yet
    the buy is answered 201 and a trade-log entry is created. *)
Lemma zero_goal_id_is_not_rejected :
  is_empty (fst (select_goal_param example_host (JNum 0) listed)) = true
  /\ status (fst (post_buy example_host 1 (JNum 10) (JNum 100) (JNum 0) listed [])) = 201
  /\ List.length (trade_log listed) = 0%nat
  /\ List.length
       (trade_log (snd (post_buy example_host 1 (JNum 10) (JNum 100) (JNum 0) listed [])))
     = 1%nat.
Proof.
  vm_compute. repeat split.
Qed.

(** C9: a buy or sell with [goal_id] 0 runs exactly as one with [goal_id]
    null: no goal lookup is made.  When quantity and price pass their tests,
    the instrument exists and no statement is rejected, the entry is
    inserted with a NULL goal reference and the answer is 201, not the
    validation error for an unresolvable goal, whatever goals exist. *)
Theorem zero_goal_id_skips_the_check
    (H : Host) (kind : string) (id : Z) (q p : jsval) (s : store) (o : oracle) :
  trade H kind id q p (JNum PrimFloat.zero) s o = trade H kind id q p JNull s o
  /\ (js_positive H q = true -> js_positive H p = true ->
      has_instrument s id = true -> resolves_first 3 o = true ->
      status (fst (trade H kind id q p (JNum PrimFloat.zero) s o)) = 201
      /\ exists t,
           trade_log (snd (trade H kind id q p (JNum PrimFloat.zero) s o))
           = (trade_log s ++ [t])%list
           /\ t_goal_id t = None
           /\ t_instrument_id t = id
           /\ t_transaction_type t = kind).
Proof.
  split; [reflexivity |]. intros Q P I R.
  rewrite (trade_accepted H kind id q p (JNum PrimFloat.zero) s o Q P I
             (or_introl eq_refl) R).
  split; [reflexivity |].
  cbn [snd insert_trade with_trade_log trade_log]. eexists.
  split; [reflexivity |]. repeat split.
Qed.

Lemma zero_goal_id_skips_the_check_witness :
  status (fst (post_sell example_host 1 (JNum 10) (JNum 100) (JNum 0) listed [])) = 201
  /\ exists t,
       trade_log (snd (post_sell example_host 1 (JNum 10) (JNum 100) (JNum 0) listed []))
       = [t]
       /\ t_goal_id t = None
       /\ t_instrument_id t = 1%Z
       /\ t_transaction_type t = "SELL".
Proof.
  apply (zero_goal_id_skips_the_check example_host "SELL" 1 (JNum 10) (JNum 100)
           listed []); reflexivity.
Defined.

(** C5 at a request of the specification's scenario: buying 10 XYZ at 100
    is answered 201 with the re-read row as the driver returned it; its
    quantity, price and total_amount are the strings "10.0000", "100.0000"
    and "1000.00", not numbers. *)
Lemma buy_answers_decimal_strings :
  fst (post_buy example_host 1 (JNum 10) (JNum 100) JUndefined listed []) =
    {| status := 201;
       payload := BTrade (Some
         {| to_id := 1; to_instrument_id := 1; to_goal_id := None;
            to_transaction_type := "BUY";
            to_quantity := JStr "10.0000"; to_price := JStr "100.0000";
            to_total_amount := JStr "1000.00"; to_created_at := 8;
            to_instrument_symbol := Some "XYZ";
            to_instrument_name := Some "XYZ Corp";
            to_instrument_type := Some "STOCK"; to_goal_name := None |}) |}
  /\ body_numeric
       (payload (fst (post_buy example_host 1 (JNum 10) (JNum 100) JUndefined listed [])))
     = false.
Proof.
  split; reflexivity.
Qed.

(** ** Every request, every oracle *)

Ltac break_oracle :=
  match goal with
  | |- context [match ?o with [] => _ | _ :: _ => _ end] =>
      is_var o; destruct o as [| [?m |] ?o]; cbn beta iota zeta
  end.

Ltac break_rows :=
  match goal with
  | |- context [match map ?f ?l with [] => _ | _ :: _ => _ end] =>
      destruct (map f l); cbn beta iota zeta
  | |- context [first_row _ (map ?f ?l)] =>
      destruct (map f l); cbn beta iota zeta delta [first_row ret throw]
  end.

Ltac break_test :=
  match goal with
  | |- context [if (?a =? ?b)%Z then _ else _] =>
      destruct (a =? b)%Z eqn:?; cbn beta iota zeta
  end.

Ltac run_handler :=
  unfold try_catch, bind, query, respond, ret;
  unfold select_instruments, select_instrument, insert_instrument,
    update_instrument, delete_instrument_row, count_trades_of_instrument,
    delete_trades_of_instrument, select_goals, select_goal, select_goal_param,
    insert_goal, update_goal, delete_goal_row, count_trades_of_goal,
    select_trade_log, select_trade, insert_trade;
  cbn beta iota zeta;
  repeat first [break_oracle | break_test | break_rows];
  cbn [fst snd].

Lemma guards_js_positive (H : Host) (q p : jsval) :
  negb (truthy q) || negb (truthy p) = false ->
  js_le_zero H q || js_le_zero H p = false ->
  js_positive H q = true /\ js_positive H p = true.
Proof.
  unfold js_positive. intros G1 G2.
  apply orb_false_iff in G1 as [Q1 P1]. apply orb_false_iff in G2 as [Q2 P2].
  apply negb_false_iff in Q1, P1. rewrite Q1, P1, Q2, P2. split; reflexivity.
Qed.

Lemma trade_effect (H : Host) (kind : string) (id : Z) (q p g : jsval)
    (s : store) (o : oracle) :
  snd (trade H kind id q p g s o) = s
  \/ (js_positive H q = true /\ js_positive H p = true
      /\ has_instrument s id = true /\ goal_accepted H g s = true
      /\ snd (trade H kind id q p g s o)
         = snd (insert_trade H id (js_or g JNull) kind q p (js_mul H q p) s)).
Proof.
  unfold trade.
  destruct (negb (truthy q) || negb (truthy p)) eqn:G1; [left; reflexivity |].
  destruct (js_le_zero H q || js_le_zero H p) eqn:G2; [left; reflexivity |].
  destruct (guards_js_positive H q p G1 G2) as [Q P].
  pose proof (instrument_found id s) as F.
  unfold select_instrument in F. cbn [fst] in F.
  unfold goal_accepted, select_goal_param. cbn [fst].
  unfold try_catch, record_trade, bind, query, respond, ret,
    select_instrument, select_goal_param.
  destruct o as [| [m1 |] [| [m2 |] [| [m3 |] [| [m4 |] o]]]];
    cbn beta iota zeta; try (left; reflexivity);
    rewrite ?F; destruct (has_instrument s id); cbn [negb];
    try (left; reflexivity);
    destruct (truthy g) eqn:T; cbn beta iota zeta; cbn [negb orb];
    try (left; reflexivity);
    try (destruct (is_empty (map goal_of_row _)) eqn:G; cbn [negb orb]);
    cbn [fst snd insert_trade select_trade];
    first [ left; reflexivity
          | right; repeat split; first [assumption | reflexivity] ].
Qed.

Lemma handle_effect (H : Host) (r : request) (s : store) (o : oracle) :
  effect H r s (snd (handle H r s o)).
Proof.
  destruct r; cbn [handle].
  - unfold get_instruments. run_handler; constructor.
  - unfold get_instrument. run_handler; constructor.
  - unfold post_instrument.
    destruct (instrument_fields_missing _ _ _ _) eqn:M; [constructor |].
    destruct (includes _ _) eqn:I; [| constructor].
    assert (V : instrument_fields_valid symbol name type current_price = true)
      by (unfold instrument_fields_valid; rewrite M, I; reflexivity).
    cbn [negb]. run_handler;
      first [apply effect_none | apply (effect_post_instrument H _ _ _ _ _ V)].
  - unfold put_instrument.
    destruct (instrument_fields_missing _ _ _ _) eqn:M; [constructor |].
    destruct (includes _ _) eqn:I; [| constructor].
    assert (V : instrument_fields_valid symbol name type current_price = true)
      by (unfold instrument_fields_valid; rewrite M, I; reflexivity).
    cbn [negb]. run_handler;
      first [apply effect_none | apply (effect_put_instrument H _ _ _ _ _ _ V)].
  - pose proof (affected_positive (fun t => (t_instrument_id t =? id)%Z)
                  (trade_log s)) as A.
    fold (trades_of_instrument id s) in A.
    unfold delete_instrument, try_catch, bind at 1, query at 1,
      count_trades_of_instrument.
    destruct o as [| [m |] o]; cbn beta iota zeta; try apply effect_none;
      rewrite A; destruct (is_empty (trades_of_instrument id s)) eqn:E;
      cbn [negb];
      try (destruct (strict_eq_str cascade "true") eqn:C;
           [apply strict_eq_str_true in C; subst cascade |]);
      run_handler;
      first [ apply effect_none
            | apply (effect_delete_instrument H _ _ _ E)
            | apply (effect_cascade_trades H _ _ E)
            | apply (effect_cascade H _ _ E) ].
  - unfold get_goals. run_handler; constructor.
  - unfold get_goal. run_handler; constructor.
  - unfold post_goal. fold (goal_fields_missing name target_amount).
    destruct (goal_fields_missing name target_amount) eqn:M; [constructor |].
    run_handler; first [apply effect_none | apply (effect_post_goal H _ _ _ M)].
  - unfold put_goal. fold (goal_fields_missing name target_amount).
    destruct (goal_fields_missing name target_amount) eqn:M; [constructor |].
    run_handler; first [apply effect_none | apply (effect_put_goal H _ _ _ _ M)].
  - pose proof (affected_positive
                  (fun t => match t_goal_id t with
                            | Some z => (z =? id)%Z
                            | None => false
                            end) (trade_log s)) as A.
    fold (trades_of_goal id s) in A.
    unfold delete_goal, try_catch, bind at 1, query at 1, count_trades_of_goal.
    destruct o as [| [m |] o]; cbn beta iota zeta; try apply effect_none;
      rewrite A; destruct (is_empty (trades_of_goal id s)) eqn:E; cbn [negb];
      run_handler;
      first [apply effect_none | apply (effect_delete_goal H _ _ _ E)].
  - unfold get_trade_log. run_handler; constructor.
  - destruct (trade_effect H "BUY" id quantity price goal_id s o)
      as [E | [Q [P [I [G E]]]]]; unfold post_buy; rewrite E;
      [apply effect_none | apply (effect_buy H _ _ _ _ _ Q P I G)].
  - destruct (trade_effect H "SELL" id quantity price goal_id s o)
      as [E | [Q [P [I [G E]]]]]; unfold post_sell; rewrite E;
      [apply effect_none | apply (effect_sell H _ _ _ _ _ Q P I G)].
Qed.

(** ** Keys *)

Lemma distinct_injective {A : Type} (key : A -> Z) (l : list A) (x y : A) :
  distinct (map key l) = true -> In x l -> In y l -> key x = key y -> x = y.
Proof.
  induction l as [| a l IH]; cbn [map distinct]; [intros _ [] |].
  intros D Hx Hy K. apply andb_true_iff in D as [N D].
  apply negb_true_iff in N.
  assert (Fresh : forall z, In z l -> key a <> key z).
  { intros z Hz Eq.
    assert (X : existsb (Z.eqb (key a)) (map key l) = true).
    { apply existsb_exists. exists (key z). split.
      - apply in_map. exact Hz.
      - apply Z.eqb_eq. exact Eq. }
    congruence. }
  destruct Hx as [-> | Hx], Hy as [-> | Hy].
  - reflexivity.
  - exfalso. exact (Fresh y Hy K).
  - exfalso. apply (Fresh x Hx). symmetry. exact K.
  - exact (IH D Hx Hy K).
Qed.

Lemma keys_ok_below {A : Type} (key : A -> Z) (next : Z) (l : list A) (x : A) :
  keys_ok key next l = true -> In x l -> (key x < next)%Z.
Proof.
  unfold keys_ok. intros K Hx. apply andb_true_iff in K as [B _].
  rewrite forallb_forall in B. apply Z.ltb_lt. exact (B x Hx).
Qed.

Lemma keys_ok_distinct {A : Type} (key : A -> Z) (next : Z) (l : list A) :
  keys_ok key next l = true -> distinct (map key l) = true.
Proof.
  unfold keys_ok. intros K. apply andb_true_iff in K as [_ D]. exact D.
Qed.

(** What one request does to trade_log: nothing, or one entry appended
    under the next id by a buy or sell, or the entries of one instrument
    removed by a cascade delete. *)
Lemma trade_log_change (H : Host) (r : request) (s : store) (o : oracle) :
  (trade_log (snd (handle H r s o)) = trade_log s
   /\ next_trade_id (snd (handle H r s o)) = next_trade_id s)
  \/ (exists t,
        trade_log (snd (handle H r s o)) = (trade_log s ++ [t])%list
        /\ t_id t = next_trade_id s
        /\ next_trade_id (snd (handle H r s o)) = (next_trade_id s + 1)%Z
        /\ exists id q p g, r = PostBuy id q p g \/ r = PostSell id q p g)
  \/ (exists id,
        r = DeleteInstrument id (JStr "true")
        /\ trade_log (snd (handle H r s o))
           = filter (fun t => negb (t_instrument_id t =? id)%Z) (trade_log s)
        /\ next_trade_id (snd (handle H r s o)) = next_trade_id s).
Proof.
  pose proof (handle_effect H r s o) as E.
  remember (snd (handle H r s o)) as s' eqn:Es. clear Es.
  destruct E; try (left; split; reflexivity).
  - right; right. exists id. repeat split.
  - right; right. exists id. repeat split.
  - right; left. eexists. split; [reflexivity |]. repeat split.
    exists id, q, p, g. left. reflexivity.
  - right; left. eexists. split; [reflexivity |]. repeat split.
    exists id, q, p, g. right. reflexivity.
Qed.

(** C8: trade-log entries are append-only.  Over every request, every host
    and every oracle, an entry present before and after the request (same
    id) is the same entry, field for field; and trade_log changes only by a
    buy or sell appending one entry or by a cascade delete of an instrument
    removing the entries that reference it. *)
Theorem trade_log_is_append_only
    (H : Host) (r : request) (s : store) (o : oracle) :
  trade_keys_ok s = true ->
  (forall t t', In t (trade_log s) ->
                In t' (trade_log (snd (handle H r s o))) ->
                t_id t' = t_id t -> t' = t)
  /\ (trade_log (snd (handle H r s o)) = trade_log s
      \/ (exists t,
            trade_log (snd (handle H r s o)) = (trade_log s ++ [t])%list
            /\ exists id q p g, r = PostBuy id q p g \/ r = PostSell id q p g)
      \/ (exists id,
            r = DeleteInstrument id (JStr "true")
            /\ trade_log (snd (handle H r s o))
               = filter (fun t => negb (t_instrument_id t =? id)%Z) (trade_log s))).
Proof.
  intros K. unfold trade_keys_ok in K.
  pose proof (keys_ok_distinct _ _ _ K) as D.
  destruct (trade_log_change H r s o)
    as [[E _] | [[t [E [I [_ B]]]] | [id [R [E _]]]]]; rewrite E.
  - split; [| left; reflexivity].
    intros t t' Ht Ht' Eq. exact (distinct_injective t_id _ _ _ D Ht' Ht Eq).
  - split; [| right; left; exists t; split; [reflexivity | exact B]].
    intros u u' Hu Hu' Eq. apply in_app_or in Hu' as [Hu' | [<- | []]].
    + exact (distinct_injective t_id _ _ _ D Hu' Hu Eq).
    + pose proof (keys_ok_below _ _ _ _ K Hu). lia.
  - split; [| right; right; exists id; split; [exact R | reflexivity]].
    intros t t' Ht Ht' Eq. apply filter_In in Ht' as [Ht' _].
    exact (distinct_injective t_id _ _ _ D Ht' Ht Eq).
Qed.

Lemma trade_log_is_append_only_witness :
  trade_keys_ok tagged = true
  /\ forall t t', In t (trade_log tagged) ->
       In t' (trade_log (snd (handle example_host
                                (PostBuy 1 (JNum 2) (JNum 101) JNull) tagged []))) ->
       t_id t' = t_id t -> t' = t.
Proof.
  split; [reflexivity |].
  apply (trade_log_is_append_only example_host
           (PostBuy 1 (JNum 2) (JNum 101) JNull) tagged [] eq_refl).
Defined.

(** ** The store invariant is kept *)

Lemma distinct_NoDup (l : list Z) : distinct l = true <-> NoDup l.
Proof.
  induction l as [| x l IH]; cbn [distinct].
  - split; [constructor | reflexivity].
  - rewrite andb_true_iff, negb_true_iff, IH. split.
    + intros [N D]. constructor; [| exact D].
      intros I. assert (X : existsb (Z.eqb x) l = true); [| congruence].
      apply existsb_exists. exists x. split; [exact I | apply Z.eqb_refl].
    + intros N. inversion N as [| y l' Nin D]; subst. split; [| exact D].
      destruct (existsb (Z.eqb x) l) eqn:X; [| reflexivity].
      apply existsb_exists in X as [y [I E]]. apply Z.eqb_eq in E. subst y.
      contradiction.
Qed.

Lemma keys_ok_iff {A : Type} (key : A -> Z) (next : Z) (l : list A) :
  keys_ok key next l = true
  <-> (forall x, In x l -> (key x < next)%Z) /\ NoDup (map key l).
Proof.
  unfold keys_ok. rewrite andb_true_iff, forallb_forall, distinct_NoDup.
  split; intros [B D]; (split; [| exact D]); intros x I;
    [apply Z.ltb_lt | apply Z.ltb_lt]; exact (B x I).
Qed.

Lemma NoDup_map_filter {A : Type} (key : A -> Z) (p : A -> bool) (l : list A) :
  NoDup (map key l) -> NoDup (map key (filter p l)).
Proof.
  induction l as [| x l IH]; cbn [map filter]; [trivial |].
  intros N. inversion N as [| y l' Nin D]; subst.
  destruct (p x); cbn [map]; [| exact (IH D)].
  constructor; [| exact (IH D)].
  intros I. apply Nin. apply in_map_iff in I as [z [E I]].
  apply filter_In in I as [I _]. rewrite <- E. apply in_map. exact I.
Qed.

Lemma keys_ok_filter {A : Type} (key : A -> Z) (next : Z) (p : A -> bool) (l : list A) :
  keys_ok key next l = true -> keys_ok key next (filter p l) = true.
Proof.
  rewrite !keys_ok_iff. intros [B D]. split.
  - intros x I. apply filter_In in I as [I _]. exact (B x I).
  - exact (NoDup_map_filter key p l D).
Qed.

Lemma keys_ok_append {A : Type} (key : A -> Z) (next : Z) (l : list A) (x : A) :
  key x = next ->
  keys_ok key next l = true -> keys_ok key (next + 1) (l ++ [x]) = true.
Proof.
  rewrite !keys_ok_iff. intros K [B D]. split.
  - intros y I. apply in_app_or in I as [I | [<- | []]].
    + pose proof (B y I). lia.
    + lia.
  - rewrite map_app. cbn [map]. apply NoDup_app. repeat split.
    + exact D.
    + constructor; [intros [] | constructor].
    + intros k I [<- | []]. apply in_map_iff in I as [y [E I]].
      pose proof (B y I). lia.
Qed.

Lemma keys_ok_map {A : Type} (key : A -> Z) (next : Z) (f : A -> A) (l : list A) :
  (forall x, key (f x) = key x) ->
  keys_ok key next l = true -> keys_ok key next (map f l) = true.
Proof.
  intros K. rewrite !keys_ok_iff. intros [B D]. split.
  - intros y I. apply in_map_iff in I as [x [<- I]]. rewrite K. exact (B x I).
  - rewrite map_map. rewrite (map_ext _ key K). exact D.
Qed.

Lemma existsb_map_key {A : Type} (key : A -> Z) (f : A -> A) (l : list A) (id : Z) :
  (forall x, key (f x) = key x) ->
  existsb (fun x => (key x =? id)%Z) (map f l) = existsb (fun x => (key x =? id)%Z) l.
Proof.
  intros K. induction l as [| x l IH]; cbn [map existsb]; [reflexivity |].
  rewrite K, IH. reflexivity.
Qed.

Lemma existsb_filter_other {A : Type} (key : A -> Z) (l : list A) (id id' : Z) :
  id' <> id ->
  existsb (fun x => (key x =? id')%Z) (filter (fun x => negb (key x =? id)%Z) l)
  = existsb (fun x => (key x =? id')%Z) l.
Proof.
  intros N. induction l as [| x l IH]; cbn [filter existsb]; [reflexivity |].
  destruct (key x =? id)%Z eqn:E; cbn [negb existsb]; rewrite IH; [| reflexivity].
  apply Z.eqb_eq in E. destruct (key x =? id')%Z eqn:E'; [| reflexivity].
  apply Z.eqb_eq in E'. congruence.
Qed.

(** When the references of a store resolve, so do they in a store with at
    least the same instruments and goals. *)
Lemma references_ok_mono (s s' : store) (t : trade_row) :
  (forall id, has_instrument s id = true -> has_instrument s' id = true) ->
  (forall id, has_goal s id = true -> has_goal s' id = true) ->
  references_ok s t = true -> references_ok s' t = true.
Proof.
  unfold references_ok. intros I G R. apply andb_true_iff in R as [R1 R2].
  rewrite (I _ R1). destruct (t_goal_id t); [exact (G _ R2) | reflexivity].
Qed.

Lemma set_instrument_id (H : Host) (sy na ty pr : jsval) (now : Z) (r : instrument_row) :
  i_id (set_instrument H sy na ty pr now r) = i_id r.
Proof.
  unfold set_instrument. destruct (_ && _); reflexivity.
Qed.

Lemma no_trades_of_instrument (id : Z) (s : store) (t : trade_row) :
  is_empty (trades_of_instrument id s) = true ->
  In t (trade_log s) -> t_instrument_id t <> id.
Proof.
  unfold trades_of_instrument. rewrite is_empty_filter_existsb, negb_true_iff.
  intros E I K. assert (X : existsb (fun t => (t_instrument_id t =? id)%Z)
                             (trade_log s) = true); [| congruence].
  apply existsb_exists. exists t. split; [exact I | apply Z.eqb_eq; exact K].
Qed.

Lemma no_trades_of_goal (id : Z) (s : store) (t : trade_row) :
  is_empty (trades_of_goal id s) = true ->
  In t (trade_log s) -> t_goal_id t <> Some id.
Proof.
  unfold trades_of_goal. rewrite is_empty_filter_existsb, negb_true_iff.
  intros E I K.
  assert (X : existsb (fun t => match t_goal_id t with
                                | Some z => (z =? id)%Z
                                | None => false
                                end) (trade_log s) = true); [| congruence].
  apply existsb_exists. exists t. split; [exact I |].
  rewrite K. apply Z.eqb_refl.
Qed.

(** The goal reference written by a buy or sell is NULL or the id of a goal
    that exists. *)
Lemma accepted_goal_exists (H : Host) (g : jsval) (s : store) :
  goal_accepted H g s = true ->
  match col_int_null H (js_or g JNull) with
  | Some z => has_goal s z
  | None => true
  end = true.
Proof.
  unfold goal_accepted, js_or, select_goal_param. cbn [fst].
  destruct (truthy g) eqn:T; cbn [negb orb col_int_null]; [| reflexivity].
  rewrite is_empty_map, is_empty_filter_existsb, negb_involutive.
  intros E. apply existsb_exists in E as [r [I E]].
  unfold eq_param in E.
  assert (C : col_int_null H g = sql_int H g) by (destruct g; try discriminate; reflexivity).
  rewrite C. destruct (sql_int H g) as [z |]; [| discriminate].
  apply Z.eqb_eq in E. subst z. unfold has_goal.
  apply existsb_exists. exists r. split; [exact I | apply Z.eqb_refl].
Qed.

Lemma references_ok_intro (s : store) (t : trade_row) :
  has_instrument s (t_instrument_id t) = true ->
  (forall g, t_goal_id t = Some g -> has_goal s g = true) ->
  references_ok s t = true.
Proof.
  unfold references_ok. intros I G. rewrite I.
  destruct (t_goal_id t) as [g |]; [exact (G g eq_refl) | reflexivity].
Qed.

Lemma references_ok_elim (s : store) (t : trade_row) :
  references_ok s t = true ->
  has_instrument s (t_instrument_id t) = true
  /\ (forall g, t_goal_id t = Some g -> has_goal s g = true).
Proof.
  unfold references_ok. intros R. apply andb_true_iff in R as [I G].
  split; [exact I |]. intros g E. rewrite E in G. exact G.
Qed.

Lemma effect_keeps_store_ok (H : Host) (r : request) (s s' : store) :
  effect H r s s' -> store_ok s = true -> store_ok s' = true.
Proof.
  intros E Ok. pose proof Ok as Ok'. unfold store_ok in Ok'.
  apply andb_true_iff in Ok' as [Ok' R]. apply andb_true_iff in Ok' as [Ok' Kt].
  apply andb_true_iff in Ok' as [Ki Kg]. unfold trade_keys_ok in Kt.
  rewrite forallb_forall in R.
  destruct E; [exact Ok | ..]; unfold store_ok, trade_keys_ok;
    cbn [snd insert_instrument update_instrument delete_instrument_row
         delete_trades_of_instrument insert_goal update_goal delete_goal_row
         insert_trade with_instruments with_goals with_trade_log
         instruments goals trade_log next_instrument_id next_goal_id
         next_trade_id];
    rewrite !andb_true_iff, forallb_forall; repeat split;
    try assumption;
    try (apply keys_ok_append; [reflexivity | assumption]);
    try (apply keys_ok_filter; assumption);
    try (apply keys_ok_map; [| assumption]; intros x;
         destruct (_ =? _)%Z; [apply set_instrument_id || reflexivity | reflexivity]);
    intros x I; try (apply filter_In in I as [I F]).
  - (* POST /instruments *)
    destruct (references_ok_elim s x (R x I)) as [RI RG].
    apply references_ok_intro; [| exact RG].
    unfold has_instrument in *. cbn [instruments with_instruments].
    rewrite existsb_app, RI. reflexivity.
  - (* PUT /instruments/:id *)
    destruct (references_ok_elim s x (R x I)) as [RI RG].
    apply references_ok_intro; [| exact RG].
    unfold has_instrument in *. cbn [instruments with_instruments].
    rewrite (existsb_map_key i_id); [exact RI |].
    intros y. destruct (_ =? _)%Z; [apply set_instrument_id | reflexivity].
  - (* DELETE /instruments/:id, no trade history *)
    destruct (references_ok_elim s x (R x I)) as [RI RG].
    apply references_ok_intro; [| exact RG].
    unfold has_instrument in *. cbn [instruments with_instruments].
    rewrite (existsb_filter_other i_id); [exact RI |].
    exact (no_trades_of_instrument id s x H0 I).
  - (* cascade, entries only *)
    exact (R x I).
  - (* cascade *)
    destruct (references_ok_elim s x (R x I)) as [RI RG].
    apply references_ok_intro; [| exact RG].
    unfold has_instrument in *. cbn [instruments with_instruments with_trade_log].
    rewrite (existsb_filter_other i_id); [exact RI |].
    apply negb_true_iff, Z.eqb_neq in F. exact F.
  - (* POST /goals *)
    destruct (references_ok_elim s x (R x I)) as [RI RG].
    apply references_ok_intro; [exact RI |].
    intros g E. unfold has_goal in *. cbn [goals with_goals].
    rewrite existsb_app, (RG g E). reflexivity.
  - (* PUT /goals/:id *)
    destruct (references_ok_elim s x (R x I)) as [RI RG].
    apply references_ok_intro; [exact RI |].
    intros g E. unfold has_goal in *. cbn [goals with_goals].
    rewrite (existsb_map_key g_id); [exact (RG g E) |].
    intros y. destruct (_ =? _)%Z; reflexivity.
  - (* DELETE /goals/:id *)
    destruct (references_ok_elim s x (R x I)) as [RI RG].
    apply references_ok_intro; [exact RI |].
    intros g E. unfold has_goal in *. cbn [goals with_goals].
    rewrite (existsb_filter_other g_id); [exact (RG g E) |].
    intros ->. exact (no_trades_of_goal id s x H0 I E).
  - (* buy *)
    apply in_app_or in I as [I | [<- | []]]; [exact (R x I) |].
    apply references_ok_intro; cbn [t_instrument_id t_goal_id]; [exact H2 |].
    intros z E. pose proof (accepted_goal_exists H g s H3) as A.
    rewrite E in A. exact A.
  - (* sell *)
    apply in_app_or in I as [I | [<- | []]]; [exact (R x I) |].
    apply references_ok_intro; cbn [t_instrument_id t_goal_id]; [exact H2 |].
    intros z E. pose proof (accepted_goal_exists H g s H3) as A.
    rewrite E in A. exact A.
Qed.

(** X1: Over every request, host and oracle, a store whose keys are unique and
    below the counters and whose trade-log references resolve is left in
    such a state: no request leaves a trade-log entry whose instrument or
    goal is missing, whichever statements are rejected. *)
Theorem requests_keep_store_ok (H : Host) (r : request) (s : store) (o : oracle) :
  store_ok s = true -> store_ok (snd (handle H r s o)) = true.
Proof.
  apply (effect_keeps_store_ok H r). apply handle_effect.
Qed.

Lemma requests_keep_store_ok_witness :
  store_ok tagged = true
  /\ store_ok (snd (handle example_host (DeleteInstrument 1 (JStr "true")) tagged
                      [None; None; Some "Deadlock found"])) = true.
Proof.
  split; [reflexivity |].
  apply (requests_keep_store_ok example_host (DeleteInstrument 1 (JStr "true"))
           tagged [None; None; Some "Deadlock found"]).
  reflexivity.
Defined.

(** X2: A buy or sell whose quantity or price is a number that is not strictly
    positive (zero, negative or NaN) is answered 400 and creates no
    trade-log entry. *)
Theorem nonpositive_amount_is_rejected
    (H : Host) (kind : string) (id : Z) (x y : float) (g : jsval)
    (s : store) (o : oracle) :
  PrimFloat.ltb PrimFloat.zero x = false \/ PrimFloat.ltb PrimFloat.zero y = false ->
  status (fst (trade H kind id (JNum x) (JNum y) g s o)) = 400
  /\ snd (trade H kind id (JNum x) (JNum y) g s o) = s.
Proof.
  rewrite <- !(js_positive_number H). unfold js_positive, trade. intros N.
  destruct (truthy (JNum x)), (truthy (JNum y)); cbn [negb orb andb] in *;
    try (split; reflexivity).
  destruct (js_le_zero H (JNum x)), (js_le_zero H (JNum y)); cbn [negb orb andb] in *;
    try (split; reflexivity).
  destruct N; discriminate.
Qed.

Lemma nonpositive_amount_is_rejected_witness :
  status (fst (post_sell example_host 1 (JNum (-3)) (JNum 100) JNull listed [])) = 400
  /\ snd (post_sell example_host 1 (JNum (-3)) (JNum 100) JNull listed []) = listed.
Proof.
  apply (nonpositive_amount_is_rejected example_host "SELL" 1 (-3)%float 100%float
           JNull listed []).
  left. reflexivity.
Defined.

(** X3: A buy or sell with valid quantity and price that names no existing
    instrument is answered 404 "Instrument not found" and creates no
    trade-log entry. *)
Theorem unknown_instrument_is_not_found
    (H : Host) (kind : string) (id : Z) (q p g : jsval) (s : store) (o : oracle) :
  js_positive H q = true -> js_positive H p = true ->
  has_instrument s id = false ->
  resolves_first 1 o = true ->
  trade H kind id q p g s o = (error_response 404 "Instrument not found", s).
Proof.
  intros Q P I R. unfold trade.
  destruct (js_positive_guards H q p Q P) as [G1 G2]. rewrite G1, G2.
  unfold try_catch, bind. step_resolved R. rewrite instrument_found, I.
  reflexivity.
Qed.

Lemma unknown_instrument_is_not_found_witness :
  post_buy example_host 42 (JNum 10) (JNum 100) (JNum 1) listed []
  = (error_response 404 "Instrument not found", listed).
Proof.
  apply (unknown_instrument_is_not_found example_host "BUY" 42 (JNum 10) (JNum 100)
           (JNum 1) listed []); reflexivity.
Defined.

(** X4: Deleting an instrument that no trade-log entry references needs no
    flag: whatever [cascade] is, the instrument row is deleted and the
    answer is 200 "Instrument deleted", or 404 when no such row exists;
    nothing else changes. *)
Theorem delete_instrument_without_history
    (id : Z) (cascade : jsval) (s : store) (o : oracle) :
  is_empty (trades_of_instrument id s) = true ->
  resolves_first 2 o = true ->
  delete_instrument id cascade s o =
    (if has_instrument s id
     then message_response "Instrument deleted"
     else error_response 404 "Instrument not found",
     with_instruments (filter (fun i => negb (i_id i =? id)%Z) (instruments s))
       (next_instrument_id s) s).
Proof.
  intros E R. unfold delete_instrument, try_catch, bind.
  step_resolved R. cbn [fst snd count_trades_of_instrument].
  rewrite affected_positive. fold (trades_of_instrument id s). rewrite E.
  cbn [negb]. step_resolved E0.
  cbn [fst snd delete_instrument_row].
  rewrite affected_zero, is_empty_filter_existsb. unfold has_instrument.
  destruct (existsb _ (instruments s)); reflexivity.
Qed.

Lemma delete_instrument_without_history_witness :
  delete_instrument 1 JUndefined listed []
  = (message_response "Instrument deleted", with_instruments [] 2 listed).
Proof.
  apply (delete_instrument_without_history 1 JUndefined listed []); reflexivity.
Defined.

(** X5: Deleting a goal that no trade-log entry references deletes its row and
    answers 200 "Goal deleted", or 404 when no such row exists. *)
Theorem delete_goal_without_history (id : Z) (s : store) (o : oracle) :
  is_empty (trades_of_goal id s) = true ->
  resolves_first 2 o = true ->
  delete_goal id s o =
    (if has_goal s id
     then message_response "Goal deleted"
     else error_response 404 "Goal not found",
     with_goals (filter (fun g => negb (g_id g =? id)%Z) (goals s))
       (next_goal_id s) s).
Proof.
  intros E R. unfold delete_goal, try_catch, bind.
  step_resolved R. cbn [fst snd count_trades_of_goal].
  rewrite affected_positive. fold (trades_of_goal id s). rewrite E.
  cbn [negb]. step_resolved E0.
  cbn [fst snd delete_goal_row].
  rewrite affected_zero, is_empty_filter_existsb. unfold has_goal.
  destruct (existsb _ (goals s)); reflexivity.
Qed.

Lemma delete_goal_without_history_witness :
  delete_goal 1 traded [] = (message_response "Goal deleted", with_goals [] 2 traded).
Proof.
  apply (delete_goal_without_history 1 traded []); reflexivity.
Defined.

(** X6: The five GET routes never write: whatever the oracle, the store after
    the request is the store before it. *)
Theorem read_requests_do_not_write (H : Host) (r : request) (s : store) (o : oracle) :
  is_read_request r = true -> snd (handle H r s o) = s.
Proof.
  intros R. pose proof (handle_effect H r s o) as E.
  remember (snd (handle H r s o)) as s' eqn:Es. clear Es.
  destruct E; try discriminate R; reflexivity.
Qed.

Lemma read_requests_do_not_write_witness :
  snd (handle example_host GetTradeLog tagged [Some "Connection lost"]) = tagged.
Proof.
  apply (read_requests_do_not_write example_host GetTradeLog tagged
           [Some "Connection lost"]).
  reflexivity.
Defined.

(** X7: Each table is written only by its own routes: requests other than
    POST, PUT and DELETE on instruments leave the instruments table as it
    was, and likewise for goals; no request moves the clock, and the
    AUTO_INCREMENT counters never go down, so an id is never handed out
    twice. *)
Theorem requests_write_their_own_table
    (H : Host) (r : request) (s : store) (o : oracle) :
  (writes_instruments r = false ->
   instruments (snd (handle H r s o)) = instruments s)
  /\ (writes_goals r = false -> goals (snd (handle H r s o)) = goals s)
  /\ clock (snd (handle H r s o)) = clock s
  /\ (next_instrument_id s <= next_instrument_id (snd (handle H r s o))
      /\ next_goal_id s <= next_goal_id (snd (handle H r s o))
      /\ next_trade_id s <= next_trade_id (snd (handle H r s o)))%Z.
Proof.
  pose proof (handle_effect H r s o) as E.
  remember (snd (handle H r s o)) as s' eqn:Es. clear Es.
  destruct E;
    cbn [snd insert_instrument update_instrument delete_instrument_row
         delete_trades_of_instrument insert_goal update_goal delete_goal_row
         insert_trade with_instruments with_goals with_trade_log
         instruments goals trade_log next_instrument_id next_goal_id
         next_trade_id clock writes_instruments writes_goals];
    repeat split; try discriminate; try reflexivity; lia.
Qed.

(** X8: When the store rejects the first statement of a request, nothing is
    written and the answer is 500 with the store's message as it came; the
    only other answer is a 400 sent by validation before any statement. *)
Theorem rejected_first_statement (H : Host) (r : request) (s : store) (o : oracle)
    (msg : string) :
  rejects_at 0 msg o ->
  snd (handle H r s o) = s
  /\ (fst (handle H r s o) = error_response 500 msg
      \/ status (fst (handle H r s o)) = 400).
Proof.
  intros R.
  destruct r; cbn [handle];
    unfold get_instruments, get_instrument, post_instrument, put_instrument,
      delete_instrument, get_goals, get_goal, post_goal, put_goal, delete_goal,
      get_trade_log, post_buy, post_sell, trade;
    repeat match goal with
           | |- context [if ?b then reject _ _ else _] =>
               destruct b; [split; [reflexivity | right; reflexivity] |]
           end;
    unfold try_catch, bind; step_rejected R;
    (split; [reflexivity | left; reflexivity]).
Qed.

Lemma rejected_first_statement_witness :
  snd (handle example_host (PostGoal (JStr "Car") (JNum 800000)) listed
         [Some "Too many connections"]) = listed
  /\ (fst (handle example_host (PostGoal (JStr "Car") (JNum 800000)) listed
             [Some "Too many connections"])
      = error_response 500 "Too many connections"
      \/ status (fst (handle example_host (PostGoal (JStr "Car") (JNum 800000)) listed
                        [Some "Too many connections"])) = 400).
Proof.
  apply (rejected_first_statement example_host (PostGoal (JStr "Car") (JNum 800000))
           listed [Some "Too many connections"] "Too many connections").
  reflexivity.
Defined.

(** X9: The insert of a buy or sell and the re-read of the entry are separate
    statements: for every accepted buy or sell, with or without a goal, when
    the statements up to the insert are answered and the re-read is rejected
    the caller gets a 500 with the store's message although the entry has
    been recorded.  (The re-read is the third statement of a request without
    a goal and the fourth of one whose goal is looked up.) *)
Theorem insert_survives_failed_reread
    (H : Host) (kind : string) (id : Z) (q p g : jsval) (s : store) (o : oracle)
    (msg : string) :
  js_positive H q = true -> js_positive H p = true ->
  has_instrument s id = true -> goal_accepted H g s = true ->
  resolves_first (if truthy g then 3 else 2) o = true ->
  rejects_at (if truthy g then 3 else 2) msg o ->
  trade H kind id q p g s o =
    (error_response 500 msg,
     snd (insert_trade H id (js_or g JNull) kind q p (js_mul H q p) s)).
Proof.
  intros Q P I G R2 R. unfold trade.
  destruct (js_positive_guards H q p Q P) as [G1 G2]. rewrite G1, G2.
  unfold goal_accepted in G.
  unfold try_catch, bind at 1.
  destruct (truthy g) eqn:T.
  - cbn [negb orb] in G. apply negb_true_iff in G.
    step_resolved R2. rewrite instrument_found, I.
    cbn [negb fst snd select_instrument].
    unfold bind at 1. step_resolved E. rewrite G. cbn [snd select_goal_param].
    unfold record_trade, bind. step_resolved E0.
    apply rejects_at_tl, rejects_at_tl, rejects_at_tl in R.
    step_rejected R. reflexivity.
  - step_resolved R2. rewrite instrument_found, I.
    cbn [negb fst snd select_instrument].
    unfold record_trade, bind. step_resolved E.
    apply rejects_at_tl, rejects_at_tl in R. step_rejected R. reflexivity.
Qed.

Lemma insert_survives_failed_reread_witness :
  (fst (post_buy example_host 1 (JNum 10) (JNum 100) JNull listed
          [None; None; Some "Connection lost"])
   = error_response 500 "Connection lost"
   /\ List.length (trade_log (snd (post_buy example_host 1 (JNum 10) (JNum 100) JNull
                                     listed [None; None; Some "Connection lost"])))
      = 1%nat)
  /\ (fst (post_sell example_host 1 (JNum 10) (JNum 100) (JNum 1) listed
             [None; None; None; Some "Connection lost"])
      = error_response 500 "Connection lost"
      /\ map t_goal_id
           (trade_log (snd (post_sell example_host 1 (JNum 10) (JNum 100) (JNum 1)
                              listed [None; None; None; Some "Connection lost"])))
         = [Some 1%Z]).
Proof.
  unfold post_buy, post_sell.
  rewrite (insert_survives_failed_reread example_host "BUY" 1 (JNum 10) (JNum 100)
             JNull listed [None; None; Some "Connection lost"] "Connection lost"
             eq_refl eq_refl eq_refl eq_refl eq_refl eq_refl).
  rewrite (insert_survives_failed_reread example_host "SELL" 1 (JNum 10) (JNum 100)
             (JNum 1) listed [None; None; None; Some "Connection lost"]
             "Connection lost" eq_refl eq_refl eq_refl eq_refl eq_refl eq_refl).
  split; split; reflexivity.
Defined.

(** X10: POST and PUT on goals: a request whose name or target_amount is missing
    or falsy is answered 400 "All fields are required" and writes nothing. *)
Theorem goal_validation_rejects
    (H : Host) (id : Z) (name target : jsval) (s : store) (o : oracle) :
  goal_fields_missing name target = true ->
  post_goal H name target s o = (error_response 400 "All fields are required", s)
  /\ put_goal H id name target s o = (error_response 400 "All fields are required", s).
Proof.
  unfold goal_fields_missing, post_goal, put_goal. intros ->. split; reflexivity.
Qed.

Lemma goal_validation_rejects_witness :
  post_goal example_host (JStr "") (JNum 5000) listed []
  = (error_response 400 "All fields are required", listed)
  /\ put_goal example_host 1 (JStr "House") JNull listed []
     = (error_response 400 "All fields are required", listed).
Proof.
  split.
  - apply (goal_validation_rejects example_host 1 (JStr "") (JNum 5000) listed []).
    reflexivity.
  - apply (goal_validation_rejects example_host 1 (JStr "House") JNull listed []).
    reflexivity.
Defined.

(** ** Monetary fields of the responses *)

Lemma prices_as_numbers (H : Host) (l : list instrument_obj) :
  forallb (fun o => is_number (io_current_price o)) (map (price_as_number H) l) = true.
Proof. induction l as [| x l IH]; [reflexivity | exact IH]. Qed.

Lemma targets_as_numbers (H : Host) (l : list goal_obj) :
  forallb (fun o => is_number (go_target_amount o)) (map (target_as_number H) l) = true.
Proof. induction l as [| x l IH]; [reflexivity | exact IH]. Qed.

Lemma trade_amounts_as_numbers (H : Host) (l : list trade_obj) :
  forallb trade_amounts_numeric (map (amounts_as_numbers H) l) = true.
Proof. induction l as [| x l IH]; [reflexivity | exact IH]. Qed.

(** X11: Every response of the instrument, goal and trade-log routes carries its
    monetary fields (current_price, target_amount, quantity, price,
    total_amount) as numbers, whatever the store holds and whichever
    statements are rejected. *)
Theorem responses_are_numeric (H : Host) (r : request) (s : store) (o : oracle) :
  is_trade_request r = false ->
  body_numeric (payload (fst (handle H r s o))) = true.
Proof.
  intros T.
  destruct r; try discriminate T; cbn [handle];
    unfold get_instruments, get_instrument, post_instrument, put_instrument,
      delete_instrument, get_goals, get_goal, post_goal, put_goal, delete_goal,
      get_trade_log;
    repeat match goal with
           | |- context [if ?b then reject _ _ else _] =>
               destruct b; [reflexivity |]
           end;
    run_handler;
    repeat (match goal with
            | |- context [if ?b then _ else _] => destruct b
            end;
            cbn beta iota zeta;
            repeat first [break_oracle | break_test | break_rows]);
    cbn [fst payload body_numeric io_current_price go_target_amount
         price_as_number target_as_number Number is_number];
    first [ reflexivity
          | apply prices_as_numbers
          | apply targets_as_numbers
          | apply trade_amounts_as_numbers ].
Qed.

Lemma responses_are_numeric_witness :
  body_numeric (payload (fst (handle example_host GetTradeLog tagged []))) = true
  /\ body_numeric
       (payload (fst (handle example_host
                        (PostInstrument (JStr "ABC") (JStr "Abc") (JStr "MF") (JNum 45.75))
                        listed []))) = true.
Proof.
  split.
  - apply (responses_are_numeric example_host GetTradeLog tagged []). reflexivity.
  - apply (responses_are_numeric example_host
             (PostInstrument (JStr "ABC") (JStr "Abc") (JStr "MF") (JNum 45.75))
             listed []).
    reflexivity.
Defined.

Lemma join_trade_rows (s : store) (t : trade_row) (e : trade_obj) :
  In e (join_trade s t) -> exists i g, e = trade_of_row t i g.
Proof.
  unfold join_trade. intros I. apply in_flat_map in I as [i [_ I]].
  apply in_map_iff in I as [g [<- _]]. exists i, g. reflexivity.
Qed.

Lemma hd_error_In {A : Type} (l : list A) (x : A) : hd_error l = Some x -> In x l.
Proof.
  destruct l as [| y l]; cbn [hd_error]; [discriminate |].
  intros E. injection E as ->. left. reflexivity.
Qed.

Lemma trade_payload (H : Host) (kind : string) (id : Z) (q p g : jsval)
    (s : store) (o : oracle) :
  (exists msg, payload (fst (trade H kind id q p g s o)) = BError msg)
  \/ (exists n s1,
        payload (fst (trade H kind id q p g s o))
        = BTrade (hd_error (fst (select_trade n s1)))).
Proof.
  unfold trade.
  destruct (negb (truthy q) || negb (truthy p)); [left; eexists; reflexivity |].
  destruct (js_le_zero H q || js_le_zero H p); [left; eexists; reflexivity |].
  unfold try_catch, record_trade, bind, query, respond, ret,
    select_instrument, select_goal_param.
  destruct o as [| [m1 |] [| [m2 |] [| [m3 |] [| [m4 |] o]]]];
    cbn beta iota zeta; try (left; eexists; reflexivity);
    destruct (is_empty (map instrument_of_row _)); cbn beta iota zeta;
    try (left; eexists; reflexivity);
    destruct (truthy g); cbn beta iota zeta;
    try (left; eexists; reflexivity);
    try (destruct (is_empty (map goal_of_row _)); cbn beta iota zeta);
    cbn [fst snd payload insert_trade];
    first [ left; eexists; reflexivity | right; eexists; eexists; reflexivity ].
Qed.

(** X12: The entry a buy or sell answers with is the re-read row as the driver
    returned it: its quantity, price and total_amount are the DECIMAL
    strings, never numbers, for every request, host and oracle. *)
Theorem trade_answers_decimal_strings
    (H : Host) (kind : string) (id : Z) (q p g : jsval) (s : store) (o : oracle)
    (e : trade_obj) :
  payload (fst (trade H kind id q p g s o)) = BTrade (Some e) ->
  is_string (to_quantity e) = true
  /\ is_string (to_price e) = true
  /\ is_string (to_total_amount e) = true
  /\ body_numeric (payload (fst (trade H kind id q p g s o))) = false.
Proof.
  intros E. rewrite E.
  destruct (trade_payload H kind id q p g s o) as [[msg X] | [n [s1 X]]];
    rewrite X in E; [discriminate |].
  injection E as E. apply hd_error_In in E.
  unfold select_trade in E. cbn [fst] in E. apply in_flat_map in E as [t [_ E]].
  apply join_trade_rows in E as [i [g' ->]]. repeat split.
Qed.

Lemma trade_answers_decimal_strings_witness :
  exists e,
    payload (fst (post_sell example_host 1 (JNum 5) (JNum 101) (JNum 1) traded []))
    = BTrade (Some e)
    /\ is_string (to_quantity e) = true
    /\ is_string (to_price e) = true
    /\ is_string (to_total_amount e) = true
    /\ body_numeric
         (payload (fst (trade example_host "SELL" 1 (JNum 5) (JNum 101) (JNum 1)
                          traded []))) = false.
Proof.
  eexists. split; [reflexivity |].
  apply (trade_answers_decimal_strings example_host "SELL" 1 (JNum 5) (JNum 101)
           (JNum 1) traded []).
  reflexivity.
Defined.

(** ** Status codes *)

(** X13: Every route answers only with the status codes of its row in the
    interface table: GET lists 200 or 500; GET by id adds 404; POST 201, 400
    or 500; PUT and DELETE 200, 400, 404 or 500; buy and sell 201, 400, 404
    or 500. *)
Theorem statuses_follow_the_route (H : Host) (r : request) (s : store) (o : oracle) :
  In (status (fst (handle H r s o))) (route_statuses r).
Proof.
  destruct r; cbn [handle route_statuses];
    unfold get_instruments, get_instrument, post_instrument, put_instrument,
      delete_instrument, get_goals, get_goal, post_goal, put_goal, delete_goal,
      get_trade_log, post_buy, post_sell, trade, record_trade;
    repeat match goal with
           | |- context [if ?b then reject _ _ else _] =>
               destruct b; [cbn; tauto |]
           end;
    run_handler;
    repeat (match goal with
            | |- context [if ?b then _ else _] => destruct b
            end;
            cbn beta iota zeta;
            repeat first [break_oracle | break_test | break_rows]);
    cbn [fst status In]; tauto.
Qed.

(** ** Listing *)

Lemma insert_desc_permutation {A : Type} (key : A -> Z) (x : A) (l : list A) :
  Permutation (insert_desc key x l) (x :: l).
Proof.
  induction l as [| y l IH]; cbn [insert_desc]; [apply Permutation_refl |].
  destruct (key y <=? key x)%Z; [apply Permutation_refl |].
  apply (perm_trans (perm_skip y IH)). apply perm_swap.
Qed.

Lemma order_by_desc_permutation {A : Type} (key : A -> Z) (l : list A) :
  Permutation (order_by_desc key l) l.
Proof.
  induction l as [| x l IH]; cbn [order_by_desc fold_right]; [constructor |].
  apply (perm_trans (insert_desc_permutation key x _)). apply perm_skip. exact IH.
Qed.

Lemma insert_desc_descending {A : Type} (key : A -> Z) (x : A) (l : list A) :
  descending (map key l) = true ->
  descending (map key (insert_desc key x l)) = true.
Proof.
  induction l as [| y l IH]; cbn [insert_desc]; [reflexivity |].
  intros D. destruct (key y <=? key x)%Z eqn:E.
  - cbn [map descending] in *. rewrite E. exact D.
  - assert (D' : descending (map key l) = true).
    { destruct l; [reflexivity |]. cbn [map descending] in D.
      apply andb_true_iff in D as [_ D]. exact D. }
    specialize (IH D'). apply Z.leb_gt in E.
    destruct l as [| z l]; cbn [insert_desc map descending] in *.
    + rewrite andb_true_r. apply Z.leb_le. lia.
    + apply andb_true_iff in D as [Dz _].
      destruct (key z <=? key x)%Z; cbn [map descending] in *.
      * apply andb_true_iff. split; [apply Z.leb_le; lia | exact IH].
      * apply andb_true_iff. split; [exact Dz | exact IH].
Qed.

Lemma order_by_desc_descending {A : Type} (key : A -> Z) (l : list A) :
  descending (map key (order_by_desc key l)) = true.
Proof.
  induction l as [| x l IH]; cbn [order_by_desc fold_right]; [reflexivity |].
  apply insert_desc_descending. exact IH.
Qed.

(** Rows with equal keys keep their table order: sorting a list that is
    already in descending order changes nothing. *)
Lemma order_by_desc_sorted_id {A : Type} (key : A -> Z) (l : list A) :
  descending (map key l) = true -> order_by_desc key l = l.
Proof.
  induction l as [| x l IH]; [reflexivity |].
  intros D. cbn [order_by_desc fold_right]. fold (order_by_desc key l).
  assert (D' : descending (map key l) = true).
  { destruct l; [reflexivity |]. cbn [map descending] in D.
    apply andb_true_iff in D as [_ D]. exact D. }
  rewrite (IH D'). destruct l as [| y l]; [reflexivity |].
  cbn [map descending] in D. apply andb_true_iff in D as [E _].
  cbn [insert_desc]. rewrite E. reflexivity.
Qed.

(** X14: GET /instruments and GET /goals, when the query is answered: status 200
    with every row of the table exactly once, newest first (created_at
    descending), each price or target as a number. *)
Theorem lists_are_complete_and_newest_first (H : Host) (s : store) (o : oracle) :
  resolves_first 1 o = true ->
  (exists l,
     get_instruments H s o = ({| status := 200; payload := BInstruments l |}, s)
     /\ Permutation (map io_id l) (map i_id (instruments s))
     /\ descending (map io_created_at l) = true)
  /\ (exists l,
        get_goals H s o = ({| status := 200; payload := BGoals l |}, s)
        /\ Permutation (map go_id l) (map g_id (goals s))
        /\ descending (map go_created_at l) = true).
Proof.
  intros R. split.
  - eexists. split; [| split].
    + unfold get_instruments, try_catch, bind. step_resolved R. reflexivity.
    + cbn [fst select_instruments]. rewrite !map_map. cbn [price_as_number io_id instrument_of_row].
      apply Permutation_map, order_by_desc_permutation.
    + cbn [fst select_instruments]. rewrite !map_map.
      cbn [price_as_number io_created_at instrument_of_row].
      apply order_by_desc_descending.
  - eexists. split; [| split].
    + unfold get_goals, try_catch, bind. step_resolved R. reflexivity.
    + cbn [fst select_goals]. rewrite !map_map. cbn [target_as_number go_id goal_of_row].
      apply Permutation_map, order_by_desc_permutation.
    + cbn [fst select_goals]. rewrite !map_map.
      cbn [target_as_number go_created_at goal_of_row].
      apply order_by_desc_descending.
Qed.

Lemma lists_are_complete_and_newest_first_witness :
  exists l,
    get_goals example_host listed [] = ({| status := 200; payload := BGoals l |}, listed)
    /\ Permutation (map go_id l) (map g_id (goals listed))
    /\ descending (map go_created_at l) = true.
Proof.
  apply (lists_are_complete_and_newest_first example_host listed []). reflexivity.
Defined.

(** ** Creating, reading back and updating *)

Lemma filter_fresh {A : Type} (key : A -> Z) (next : Z) (l : list A) :
  (forall x, In x l -> (key x < next)%Z) ->
  filter (fun r => (key r =? next)%Z) l = [].
Proof.
  induction l as [| x l IH]; cbn [filter]; [reflexivity |]. intros B.
  assert (E : (key x =? next)%Z = false).
  { apply Z.eqb_neq. pose proof (B x (or_introl eq_refl)). lia. }
  rewrite E. apply IH. intros y I. apply B. right. exact I.
Qed.

Lemma with_instruments_same (s : store) :
  with_instruments (instruments s) (next_instrument_id s) s = s.
Proof. destruct s; reflexivity. Qed.

Lemma map_unmatched {A : Type} (p : A -> bool) (f : A -> A) (l : list A) :
  existsb p l = false -> map (fun x => if p x then f x else x) l = l.
Proof.
  induction l as [| x l IH]; cbn [existsb map]; [reflexivity |].
  intros E. apply orb_false_iff in E as [E1 E2]. rewrite E1, (IH E2). reflexivity.
Qed.

Lemma select_appended {A : Type} (key : A -> Z) (next : Z) (l : list A) (r : A) :
  keys_ok key next l = true -> key r = next ->
  filter (fun x => (key x =? next)%Z) (l ++ [r]) = [r].
Proof.
  intros K E. apply keys_ok_iff in K as [B _].
  rewrite filter_app, (filter_fresh key _ _ B). cbn [filter app].
  rewrite E, Z.eqb_refl. reflexivity.
Qed.

Lemma post_instrument_created (H : Host) (sy na ty pr : jsval) (s : store) (o : oracle) :
  instrument_fields_valid sy na ty pr = true ->
  keys_ok i_id (next_instrument_id s) (instruments s) = true ->
  resolves_first 2 o = true ->
  post_instrument H sy na ty pr s o
  = ({| status := 201;
        payload := BInstrument (price_as_number H (instrument_of_row
          {| i_id := next_instrument_id s;
             i_symbol := col_text H sy; i_name := col_text H na;
             i_type := col_text H ty;
             i_current_price := sql_decimal H 4 pr;
             i_created_at := clock s; i_updated_at := clock s |})) |},
     snd (insert_instrument H sy na ty pr s)).
Proof.
  intros V K R. unfold instrument_fields_valid in V.
  apply andb_true_iff in V as [M I]. apply negb_true_iff in M.
  unfold post_instrument. rewrite M, I. cbn [negb].
  unfold try_catch, bind. step_resolved R. step_resolved E.
  cbn [fst snd insert_instrument select_instrument with_instruments instruments].
  rewrite (select_appended i_id _ _ _ K) by reflexivity. reflexivity.
Qed.

(** X15: POST /instruments with valid fields, when both statements are
    answered: the answer is 201 with the new instrument, whose id is the
    table's next id and whose price is a number; the row is appended; and a
    GET of that id, when answered, returns the very same object. *)
Theorem created_instrument_reads_back
    (H : Host) (sy na ty pr : jsval) (s : store) (o o' : oracle) :
  instrument_fields_valid sy na ty pr = true ->
  keys_ok i_id (next_instrument_id s) (instruments s) = true ->
  resolves_first 2 o = true -> resolves_first 1 o' = true ->
  exists r,
    post_instrument H sy na ty pr s o
    = ({| status := 201;
          payload := BInstrument (price_as_number H (instrument_of_row r)) |},
       with_instruments (instruments s ++ [r]) (next_instrument_id s + 1) s)
    /\ i_id r = next_instrument_id s
    /\ i_symbol r = col_text H sy /\ i_name r = col_text H na
    /\ i_type r = col_text H ty /\ i_current_price r = sql_decimal H 4 pr
    /\ get_instrument H (i_id r) (snd (post_instrument H sy na ty pr s o)) o'
       = ({| status := 200;
             payload := BInstrument (price_as_number H (instrument_of_row r)) |},
          snd (post_instrument H sy na ty pr s o)).
Proof.
  intros V K R R'. rewrite (post_instrument_created H sy na ty pr s o V K R).
  eexists. split; [reflexivity |].
  split; [reflexivity |]. split; [reflexivity |]. split; [reflexivity |].
  split; [reflexivity |]. split; [reflexivity |].
  unfold get_instrument, try_catch, bind. step_resolved R'.
  cbn [fst snd insert_instrument select_instrument with_instruments instruments i_id].
  rewrite (select_appended i_id _ _ _ K) by reflexivity. reflexivity.
Qed.

Lemma created_instrument_reads_back_witness :
  exists r,
    post_instrument example_host (JStr "TCS") (JStr "Tata Consultancy Services")
      (JStr "STOCK") (JNum 3250.75) listed []
    = ({| status := 201;
          payload := BInstrument (price_as_number example_host (instrument_of_row r)) |},
       with_instruments (instruments listed ++ [r]) (next_instrument_id listed + 1) listed)
    /\ i_id r = 2%Z
    /\ i_symbol r = "TCS" /\ i_name r = "Tata Consultancy Services"
    /\ i_type r = "STOCK" /\ i_current_price r = 32507500%Z
    /\ get_instrument example_host (i_id r)
         (snd (post_instrument example_host (JStr "TCS")
                 (JStr "Tata Consultancy Services") (JStr "STOCK") (JNum 3250.75)
                 listed [])) []
       = ({| status := 200;
             payload := BInstrument (price_as_number example_host (instrument_of_row r)) |},
          snd (post_instrument example_host (JStr "TCS")
                 (JStr "Tata Consultancy Services") (JStr "STOCK") (JNum 3250.75)
                 listed [])).
Proof.
  apply (created_instrument_reads_back example_host (JStr "TCS")
           (JStr "Tata Consultancy Services") (JStr "STOCK") (JNum 3250.75)
           listed [] []); reflexivity.
Defined.

(** X16: PUT /instruments/:id with valid fields and an id that no row has:
    404 "Instrument not found", and the store is as it was. *)
Theorem put_unknown_instrument_is_not_found
    (H : Host) (id : Z) (sy na ty pr : jsval) (s : store) (o : oracle) :
  instrument_fields_valid sy na ty pr = true ->
  has_instrument s id = false ->
  resolves_first 1 o = true ->
  put_instrument H id sy na ty pr s o
  = (error_response 404 "Instrument not found", s).
Proof.
  intros V N R. unfold instrument_fields_valid in V.
  apply andb_true_iff in V as [M I]. apply negb_true_iff in M.
  unfold put_instrument. rewrite M, I. cbn [negb].
  unfold try_catch, bind. step_resolved R.
  cbn [fst snd update_instrument].
  rewrite affected_zero, is_empty_filter_existsb.
  fold (has_instrument s id). rewrite N. cbn [negb respond ret].
  unfold has_instrument in N.
  rewrite (map_unmatched (fun r => (i_id r =? id)%Z) _ _ N), with_instruments_same.
  reflexivity.
Qed.

Lemma put_unknown_instrument_is_not_found_witness :
  put_instrument example_host 9 (JStr "XYZ") (JStr "XYZ Corp") (JStr "STOCK")
    (JNum 101) listed []
  = (error_response 404 "Instrument not found", listed).
Proof.
  apply (put_unknown_instrument_is_not_found example_host 9 (JStr "XYZ")
           (JStr "XYZ Corp") (JStr "STOCK") (JNum 101) listed []); reflexivity.
Defined.

Lemma set_instrument_fields (H : Host) (sy na ty pr : jsval) (now : Z)
    (r : instrument_row) :
  i_symbol (set_instrument H sy na ty pr now r) = col_text H sy
  /\ i_name (set_instrument H sy na ty pr now r) = col_text H na
  /\ i_type (set_instrument H sy na ty pr now r) = col_text H ty
  /\ i_current_price (set_instrument H sy na ty pr now r) = sql_decimal H 4 pr
  /\ i_created_at (set_instrument H sy na ty pr now r) = i_created_at r.
Proof.
  unfold set_instrument.
  destruct (String.eqb (col_text H sy) (i_symbol r)) eqn:E1;
    destruct (String.eqb (col_text H na) (i_name r)) eqn:E2;
    destruct (String.eqb (col_text H ty) (i_type r)) eqn:E3;
    destruct (sql_decimal H 4 pr =? i_current_price r)%Z eqn:E4;
    cbn [andb]; repeat split; try reflexivity.
  all: try (apply String.eqb_eq in E1; symmetry; exact E1).
  all: try (apply String.eqb_eq in E2; symmetry; exact E2).
  all: try (apply String.eqb_eq in E3; symmetry; exact E3).
  all: apply Z.eqb_eq in E4; symmetry; exact E4.
Qed.

Lemma filter_map_keys {A : Type} (key : A -> Z) (f : A -> A) (id : Z) (l : list A) :
  (forall x, key (f x) = key x) ->
  filter (fun x => (key x =? id)%Z) (map f l)
  = map f (filter (fun x => (key x =? id)%Z) l).
Proof.
  intros K. induction l as [| x l IH]; cbn [map filter]; [reflexivity |].
  rewrite K. destruct (key x =? id)%Z; cbn [map]; rewrite IH; reflexivity.
Qed.

(** X17: PUT /instruments/:id with valid fields on an existing instrument, when
    both statements are answered: status 200, and the instrument returned
    carries the four values written, a numeric price, and the id and
    created_at it had; the table keeps its ids, in the same order. *)
Theorem put_instrument_updates
    (H : Host) (id : Z) (sy na ty pr : jsval) (s : store) (o : oracle) :
  instrument_fields_valid sy na ty pr = true ->
  has_instrument s id = true ->
  resolves_first 2 o = true ->
  exists r obj,
    In r (instruments s) /\ i_id r = id
    /\ fst (put_instrument H id sy na ty pr s o)
       = {| status := 200; payload := BInstrument obj |}
    /\ io_id obj = id
    /\ io_symbol obj = col_text H sy /\ io_name obj = col_text H na
    /\ io_type obj = col_text H ty
    /\ io_current_price obj
       = Number H (JStr (decimal_string 4 (sql_decimal H 4 pr)))
    /\ io_created_at obj = i_created_at r
    /\ map i_id (instruments (snd (put_instrument H id sy na ty pr s o)))
       = map i_id (instruments s).
Proof.
  intros V E R. unfold instrument_fields_valid in V.
  apply andb_true_iff in V as [M I]. apply negb_true_iff in M.
  unfold has_instrument in E.
  pose proof E as E'. rewrite <- (negb_involutive (existsb _ _)) in E'.
  rewrite <- is_empty_filter_existsb in E'. apply negb_true_iff in E'.
  destruct (filter (fun r => (i_id r =? id)%Z) (instruments s)) as [| r rest] eqn:F;
    [discriminate |].
  assert (Ir : In r (instruments s) /\ (i_id r =? id)%Z = true).
  { apply (filter_In (fun r => (i_id r =? id)%Z)). rewrite F. left. reflexivity. }
  destruct Ir as [Ir Er]. apply Z.eqb_eq in Er.
  assert (K : forall x,
            i_id ((fun x => if (i_id x =? id)%Z
                            then set_instrument H sy na ty pr (clock s) x
                            else x) x) = i_id x).
  { intros x. cbn beta. destruct (_ =? _)%Z; [apply set_instrument_id | reflexivity]. }
  destruct (set_instrument_fields H sy na ty pr (clock s) r) as [S1 [S2 [S3 [S4 S5]]]].
  exists r, (price_as_number H (instrument_of_row (set_instrument H sy na ty pr (clock s) r))).
  unfold put_instrument. rewrite M, I. cbn [negb].
  unfold try_catch, bind.
  destruct (query_resolves (update_instrument H sy na ty pr id) s o 1 R) as [Q1 R1].
  rewrite Q1. cbn beta iota.
  cbn [fst snd update_instrument].
  rewrite affected_zero, F. cbn [is_empty].
  destruct (query_resolves (select_instrument id)
              (with_instruments
                 (map (fun r0 => if (i_id r0 =? id)%Z
                                 then set_instrument H sy na ty pr (clock s) r0
                                 else r0) (instruments s))
                 (next_instrument_id s) s) (tl o) 0 R1) as [Q2 _].
  rewrite Q2. cbn beta iota.
  cbn [fst snd select_instrument with_instruments instruments].
  rewrite (filter_map_keys i_id _ id _ K), F. cbn [map first_row].
  assert (Eid : (i_id r =? id)%Z = true) by (apply Z.eqb_eq; exact Er).
  rewrite Eid. cbn [ret respond fst snd price_as_number instrument_of_row
                    io_id io_symbol io_name io_type io_current_price io_created_at].
  rewrite set_instrument_id, S1, S2, S3, S4, S5.
  repeat split; try assumption.
  cbn [instruments with_instruments]. rewrite map_map. apply map_ext. exact K.
Qed.

Lemma put_instrument_updates_witness :
  exists r obj,
    In r (instruments traded) /\ i_id r = 1%Z
    /\ fst (put_instrument example_host 1 (JStr "XYZ") (JStr "XYZ Ltd") (JStr "STOCK")
              (JNum 101.5) traded [])
       = {| status := 200; payload := BInstrument obj |}
    /\ io_id obj = 1%Z
    /\ io_symbol obj = "XYZ" /\ io_name obj = "XYZ Ltd"
    /\ io_type obj = "STOCK"
    /\ io_current_price obj = JNum 101.5
    /\ io_created_at obj = i_created_at r
    /\ map i_id (instruments (snd (put_instrument example_host 1 (JStr "XYZ")
                                     (JStr "XYZ Ltd") (JStr "STOCK") (JNum 101.5)
                                     traded [])))
       = map i_id (instruments traded).
Proof.
  apply (put_instrument_updates example_host 1 (JStr "XYZ") (JStr "XYZ Ltd")
           (JStr "STOCK") (JNum 101.5) traded []); reflexivity.
Defined.

(** ** The joined trade log *)

Lemma filter_none {A : Type} (p : A -> bool) (l : list A) :
  (forall y, In y l -> p y = false) -> filter p l = [].
Proof.
  induction l as [| a l IH]; cbn [filter]; [reflexivity |]. intros N.
  rewrite (N a (or_introl eq_refl)). apply IH. intros y I. apply N. right. exact I.
Qed.







(** X19: After a cascade delete that went through, GET /trade-log lists no entry
    of the deleted instrument. *)
Theorem cascade_clears_the_listing
    (H : Host) (id : Z) (s : store) (o o' : oracle) (l : list trade_obj) :
  is_empty (trades_of_instrument id s) = false ->
  resolves_first 3 o = true ->
  payload (fst (get_trade_log H (snd (delete_instrument id (JStr "true") s o)) o'))
  = BTrades l ->
  forallb (fun e => negb (to_instrument_id e =? id)%Z) l = true.
Proof.
  intros E R. rewrite (delete_instrument_cascades id s o E R).
  cbn [snd delete_instrument_row delete_trades_of_instrument].
  unfold get_trade_log, try_catch, bind, query, select_trade_log.
  destruct o' as [| [m |] o']; cbn [fst payload respond ret];
    intros P; try discriminate P; injection P as <-;
    apply forallb_forall; intros e I;
    apply in_map_iff in I as [e0 [<- I]];
    apply (Permutation_in _ (order_by_desc_permutation to_created_at _)) in I;
    apply in_flat_map in I as [t [It I]];
    apply join_trade_rows in I as [i [g ->]];
    cbn [trade_log with_instruments with_trade_log] in It;
    apply filter_In in It as [_ It]; exact It.
Qed.

Lemma cascade_clears_the_listing_witness :
  exists e,
    payload (fst (get_trade_log example_host
                    (snd (delete_instrument 1 (JStr "true") portfolio [])) []))
    = BTrades [e]
    /\ forallb (fun e => negb (to_instrument_id e =? 1)%Z) [e] = true.
Proof.
  eexists. split; [reflexivity |].
  apply (cascade_clears_the_listing example_host 1 portfolio [] []); reflexivity.
Defined.

(** ** Buy and sell are one operation *)

(** X20: A sell is accepted exactly when the same buy is: for every request,
    store and oracle the two handlers answer with the same status and leave
    the same trade log up to the transaction type.  No holding is consulted:
    a sell is never refused for exceeding what was bought. *)
Theorem sell_is_accepted_like_buy
    (H : Host) (id : Z) (q p g : jsval) (s : store) (o : oracle) :
  status (fst (post_sell H id q p g s o)) = status (fst (post_buy H id q p g s o))
  /\ map trade_figures (trade_log (snd (post_sell H id q p g s o)))
     = map trade_figures (trade_log (snd (post_buy H id q p g s o))).
Proof.
  unfold post_sell, post_buy, trade.
  destruct (negb (truthy q) || negb (truthy p)); [split; reflexivity |].
  destruct (js_le_zero H q || js_le_zero H p); [split; reflexivity |].
  unfold try_catch, record_trade, bind, query, respond, ret,
    select_instrument, select_goal_param, insert_trade, select_trade.
  destruct o as [| [m1 |] [| [m2 |] [| [m3 |] [| [m4 |] o]]]];
    cbn beta iota zeta; try (split; reflexivity);
    destruct (is_empty (map instrument_of_row _)); cbn beta iota zeta;
    try (split; reflexivity);
    destruct (truthy g); cbn beta iota zeta; try (split; reflexivity);
    try (destruct (is_empty (map goal_of_row _)); cbn beta iota zeta);
    cbn [fst snd status insert_trade with_trade_log trade_log];
    rewrite ?map_app; split; reflexivity.
Qed.

(** A sell on an instrument that was never bought goes through. *)
Example sell_without_holding :
  status (fst (post_sell example_host 1 (JNum 1000) (JNum 100) JNull listed [])) = 201.
Proof. reflexivity. Qed.

(** ** Goals *)

Lemma with_goals_same (s : store) : with_goals (goals s) (next_goal_id s) s = s.
Proof. destruct s; reflexivity. Qed.

(** X21: POST /goals with a name and a target, when both statements are
    answered: 201 with the new goal under the table's next id, its target a
    number; and a GET of that id, when answered, returns the same object. *)
Theorem created_goal_reads_back
    (H : Host) (na ta : jsval) (s : store) (o o' : oracle) :
  goal_fields_missing na ta = false ->
  keys_ok g_id (next_goal_id s) (goals s) = true ->
  resolves_first 2 o = true -> resolves_first 1 o' = true ->
  exists r,
    post_goal H na ta s o
    = ({| status := 201; payload := BGoal (target_as_number H (goal_of_row r)) |},
       with_goals (goals s ++ [r]) (next_goal_id s + 1) s)
    /\ g_id r = next_goal_id s
    /\ g_name r = col_text H na /\ g_target_amount r = sql_decimal H 2 ta
    /\ get_goal H (g_id r) (snd (post_goal H na ta s o)) o'
       = ({| status := 200; payload := BGoal (target_as_number H (goal_of_row r)) |},
          snd (post_goal H na ta s o)).
Proof.
  intros M K R R'.
  assert (P : post_goal H na ta s o
              = ({| status := 201;
                    payload := BGoal (target_as_number H (goal_of_row
                      {| g_id := next_goal_id s; g_name := col_text H na;
                         g_target_amount := sql_decimal H 2 ta;
                         g_created_at := clock s |})) |},
                 snd (insert_goal H na ta s))).
  { unfold post_goal. fold (goal_fields_missing na ta). rewrite M.
    unfold try_catch, bind. step_resolved R. step_resolved E.
    cbn [fst snd insert_goal select_goal with_goals goals].
    rewrite (select_appended g_id _ _ _ K) by reflexivity. reflexivity. }
  rewrite P. eexists. split; [reflexivity |].
  split; [reflexivity |]. split; [reflexivity |]. split; [reflexivity |].
  unfold get_goal, try_catch, bind. step_resolved R'.
  cbn [fst snd insert_goal select_goal with_goals goals g_id].
  rewrite (select_appended g_id _ _ _ K) by reflexivity. reflexivity.
Qed.

Lemma created_goal_reads_back_witness :
  exists r,
    post_goal example_host (JStr "House Purchase") (JNum 2000000) listed []
    = ({| status := 201;
          payload := BGoal (target_as_number example_host (goal_of_row r)) |},
       with_goals (goals listed ++ [r]) (next_goal_id listed + 1) listed)
    /\ g_id r = 2%Z
    /\ g_name r = "House Purchase" /\ g_target_amount r = 200000000%Z
    /\ get_goal example_host (g_id r)
         (snd (post_goal example_host (JStr "House Purchase") (JNum 2000000) listed [])) []
       = ({| status := 200;
             payload := BGoal (target_as_number example_host (goal_of_row r)) |},
          snd (post_goal example_host (JStr "House Purchase") (JNum 2000000) listed [])).
Proof.
  apply (created_goal_reads_back example_host (JStr "House Purchase") (JNum 2000000)
           listed [] []); reflexivity.
Defined.

(** X22: PUT /goals/:id with name and target on an id that no row has: 404
    "Goal not found", and the store is as it was. *)
Theorem put_unknown_goal_is_not_found
    (H : Host) (id : Z) (na ta : jsval) (s : store) (o : oracle) :
  goal_fields_missing na ta = false ->
  has_goal s id = false ->
  resolves_first 1 o = true ->
  put_goal H id na ta s o = (error_response 404 "Goal not found", s).
Proof.
  intros M N R. unfold put_goal. fold (goal_fields_missing na ta). rewrite M.
  unfold try_catch, bind. step_resolved R.
  cbn [fst snd update_goal].
  rewrite affected_zero, is_empty_filter_existsb.
  fold (has_goal s id). rewrite N. cbn [negb respond ret].
  unfold has_goal in N.
  rewrite (map_unmatched (fun r => (g_id r =? id)%Z) _ _ N), with_goals_same.
  reflexivity.
Qed.

Lemma put_unknown_goal_is_not_found_witness :
  put_goal example_host 5 (JStr "Car") (JNum 800000) listed []
  = (error_response 404 "Goal not found", listed).
Proof.
  apply (put_unknown_goal_is_not_found example_host 5 (JStr "Car") (JNum 800000)
           listed []); reflexivity.
Defined.

(** X23: GET /instruments/:id and GET /goals/:id on an id that no row has, when
    the query is answered: 404 with the route's message. *)
Theorem get_unknown_is_not_found (H : Host) (id : Z) (s : store) (o : oracle) :
  resolves_first 1 o = true ->
  (has_instrument s id = false ->
   get_instrument H id s o = (error_response 404 "Instrument not found", s))
  /\ (has_goal s id = false ->
      get_goal H id s o = (error_response 404 "Goal not found", s)).
Proof.
  intros R. split; intros N.
  - unfold get_instrument, try_catch, bind. step_resolved R.
    unfold has_instrument in N. cbn [fst snd select_instrument].
    rewrite (filter_none (fun r => (i_id r =? id)%Z)); [reflexivity |].
    intros y I. destruct (i_id y =? id)%Z eqn:Ey; [| reflexivity].
    assert (X : existsb (fun i => (i_id i =? id)%Z) (instruments s) = true)
      by (apply existsb_exists; exists y; split; assumption).
    congruence.
  - unfold get_goal, try_catch, bind. step_resolved R.
    unfold has_goal in N. cbn [fst snd select_goal].
    rewrite (filter_none (fun r => (g_id r =? id)%Z)); [reflexivity |].
    intros y I. destruct (g_id y =? id)%Z eqn:Ey; [| reflexivity].
    assert (X : existsb (fun i => (g_id i =? id)%Z) (goals s) = true)
      by (apply existsb_exists; exists y; split; assumption).
    congruence.
Qed.

Lemma get_unknown_is_not_found_witness :
  get_instrument example_host 7 listed [] = (error_response 404 "Instrument not found", listed)
  /\ get_goal example_host 7 listed [] = (error_response 404 "Goal not found", listed).
Proof.
  destruct (get_unknown_is_not_found example_host 7 listed [] eq_refl) as [I G].
  split; [exact (I eq_refl) | exact (G eq_refl)].
Defined.

(** ** What a buy or sell answers *)





(** X25: GET /instruments/:id and GET /goals/:id on an id that a row has, when
    the query is answered: 200 with a row of that id, its price or target a
    number, and the store unchanged. *)
Theorem get_existing_returns_the_row (H : Host) (id : Z) (s : store) (o : oracle) :
  resolves_first 1 o = true ->
  (has_instrument s id = true ->
   exists r, In r (instruments s) /\ i_id r = id
             /\ get_instrument H id s o
                = ({| status := 200;
                      payload := BInstrument (price_as_number H (instrument_of_row r)) |},
                   s))
  /\ (has_goal s id = true ->
      exists r, In r (goals s) /\ g_id r = id
                /\ get_goal H id s o
                   = ({| status := 200;
                         payload := BGoal (target_as_number H (goal_of_row r)) |},
                      s)).
Proof.
  intros R. split; intros E.
  - unfold has_instrument in E. rewrite <- (negb_involutive (existsb _ _)) in E.
    rewrite <- is_empty_filter_existsb in E. apply negb_true_iff in E.
    destruct (filter (fun r => (i_id r =? id)%Z) (instruments s)) as [| r rest] eqn:F;
      [discriminate |].
    assert (Ir : In r (instruments s) /\ (i_id r =? id)%Z = true).
    { apply (filter_In (fun r => (i_id r =? id)%Z)). rewrite F. left. reflexivity. }
    destruct Ir as [Ir Er]. apply Z.eqb_eq in Er. exists r.
    split; [exact Ir |]. split; [exact Er |].
    unfold get_instrument, try_catch, bind. step_resolved R.
    cbn [fst snd select_instrument]. rewrite F. reflexivity.
  - unfold has_goal in E. rewrite <- (negb_involutive (existsb _ _)) in E.
    rewrite <- is_empty_filter_existsb in E. apply negb_true_iff in E.
    destruct (filter (fun r => (g_id r =? id)%Z) (goals s)) as [| r rest] eqn:F;
      [discriminate |].
    assert (Ir : In r (goals s) /\ (g_id r =? id)%Z = true).
    { apply (filter_In (fun r => (g_id r =? id)%Z)). rewrite F. left. reflexivity. }
    destruct Ir as [Ir Er]. apply Z.eqb_eq in Er. exists r.
    split; [exact Ir |]. split; [exact Er |].
    unfold get_goal, try_catch, bind. step_resolved R.
    cbn [fst snd select_goal]. rewrite F. reflexivity.
Qed.

Lemma get_existing_returns_the_row_witness :
  get_instrument example_host 2 portfolio []
  = ({| status := 200;
        payload := BInstrument (price_as_number example_host (instrument_of_row gold)) |},
     portfolio)
  /\ exists r, In r (goals portfolio) /\ g_id r = 1%Z
               /\ get_goal example_host 1 portfolio []
                  = ({| status := 200;
                        payload := BGoal (target_as_number example_host (goal_of_row r)) |},
                     portfolio).
Proof.
  split; [reflexivity |].
  apply (get_existing_returns_the_row example_host 1 portfolio [] eq_refl).
  reflexivity.
Defined.
